(** * gomost: host dispatcher, listener provisioning and redirect server

    A shallow embedding of the Go package [proxy] of landonia/gomost
    (the later of the two versions of [proxy/proxy.go], the nested
    [Configuration] of [config.go] and the listener helpers [TLS], [CERT], [LETSENCRYPT],
    [LETSENCRYPTPROD], [TCP4] and [ParseHost]).

    Go strings are byte strings and are modelled by [string]; Go maps are
    [gmap string _], a [nil] map being [None]; an [error] is its message,
    [nil] being [None].  Calls into the Go standard library that touch the
    outside world (the environment, the file system, sockets, the URL
    parser, the certificate loader) are parameters of the definitions. *)

From Stdlib Require Import ZArith Ascii String List.
From stdpp Require Import base option gmap strings list pretty.

Local Open Scope Z_scope.
Local Open Scope string_scope.

(** ** Go string primitives *)

(** [strings.IndexByte(s, c)]: index of the first [c] in [s], or [-1]. *)
Fixpoint strings_IndexByte (s : string) (c : ascii) : Z :=
  match s with
  | EmptyString => -1
  | String a rest =>
      if Ascii.eqb a c then 0
      else let i := strings_IndexByte rest c in
           if (i =? -1)%Z then -1 else i + 1
  end.

(** [strings.Index(s, ":")], the only separator the package searches for. *)
Definition strings_Index_colon (s : string) : Z := strings_IndexByte s ":"%char.

(** The slice [s[n:]]. *)
Fixpoint slice_from (n : nat) (s : string) : string :=
  match n, s with
  | O, _ => s
  | S n', String _ rest => slice_from n' rest
  | S _, EmptyString => EmptyString
  end.

(** The slice [s[:n]]. *)
Fixpoint slice_to (n : nat) (s : string) : string :=
  match n, s with
  | O, _ => EmptyString
  | S n', String a rest => String a (slice_to n' rest)
  | S _, EmptyString => EmptyString
  end.

(** A string between double quotes (byte 34). *)
Definition quoted (s : string) : string :=
  String (ascii_of_nat 34) s +:+ String (ascii_of_nat 34) EmptyString.

(** [strconv.Itoa]. *)
Definition strconv_Itoa (n : Z) : string := pretty n.

(** ** Constants of the listener file *)

Definition DefaultSSLAddr : string := ":443".
Definition DefaultServerHostname : string := "0.0.0.0".
Definition DefaultServerPort : Z := 8080.
Definition DefaultServerAddr : string :=
  DefaultServerHostname +:+ ":" +:+ strconv_Itoa DefaultServerPort.

(** [strings.Join(l, "/")]. *)
Fixpoint join_slash (l : list string) : string :=
  match l with
  | [] => ""
  | [e] => e
  | e :: rest => e +:+ "/" +:+ join_slash rest
  end.

(** The fields of [s] between the bytes satisfying [sep]; as
    [strings.Split] does, an empty field is kept. *)
Fixpoint split_on (sep : ascii → bool) (s : string) : list string :=
  match s with
  | EmptyString => [EmptyString]
  | String a rest =>
      if sep a then EmptyString :: split_on sep rest
      else match split_on sep rest with
           | [] => [String a EmptyString]
           | e :: es => String a e :: es
           end
  end.

Definition isSlash (a : ascii) : bool := Ascii.eqb a "/"%char.
Definition isSlashRune (a : ascii) : bool :=
  Ascii.eqb a "/"%char || Ascii.eqb a "\"%char.

(** [strings.HasSuffix]. *)
Definition strings_HasSuffix (s suffix : string) : bool :=
  bool_decide (slice_from (String.length s - String.length suffix) s = suffix).

(** [strings.TrimSuffix(s, "/")]. *)
Fixpoint trim_slash (s : string) : string :=
  match s with
  | EmptyString => EmptyString
  | String a EmptyString =>
      if Ascii.eqb a "/"%char then EmptyString else s
  | String a rest => String a (trim_slash rest)
  end.

(** The last byte of [s], if any. *)
Fixpoint last_byte (s : string) : option ascii :=
  match s with
  | EmptyString => None
  | String a EmptyString => Some a
  | String _ rest => last_byte rest
  end.

(** ** The [path] package of the Go library

    [path.Clean] is purely lexical.  It is given here on the list of
    elements between slashes instead of on a byte buffer: empty and [.]
    elements vanish, [..] removes the element before it when there is one
    to remove, is dropped at the root and is kept in front of a relative
    path.  [out] is the stack of elements written so far, last first. *)
Fixpoint Clean_elems (rooted : bool) (out : list string) (elems : list string)
  : list string :=
  match elems with
  | [] => rev out
  | e :: rest =>
      if decide (e = "") then Clean_elems rooted out rest
      else if decide (e = ".") then Clean_elems rooted out rest
      else if decide (e = "..") then
        match out with
        | top :: below =>
            if decide (top = "..") then Clean_elems rooted (e :: out) rest
            else Clean_elems rooted below rest
        | [] =>
            if rooted then Clean_elems rooted out rest
            else Clean_elems rooted (e :: out) rest
        end
      else Clean_elems rooted (e :: out) rest
  end.

Definition path_Clean (p : string) : string :=
  match p with
  | EmptyString => "."
  | String a _ =>
      let rooted := Ascii.eqb a "/"%char in
      let body := join_slash (Clean_elems rooted [] (split_on isSlash p)) in
      let cleaned := if rooted then "/" +:+ body else body in
      if decide (cleaned = "") then "." else cleaned
  end.

(** [path.Join]: the elements from the first non-empty one on, joined by
    slashes and cleaned; the empty string when every element is empty. *)
Fixpoint path_Join (elem : list string) : string :=
  match elem with
  | [] => ""
  | e :: rest =>
      if decide (e = "") then path_Join rest
      else path_Clean (join_slash elem)
  end.

(** [path.Base]: the last element, trailing slashes removed. *)
Definition path_Base (p : string) : string :=
  if decide (p = "") then "."
  else match rev (filter (λ e, e ≠ "") (split_on isSlash p)) with
       | [] => "/"
       | e :: _ => e
       end.

(** ** Errors and results *)

(** A Go [error] is modelled by its message. *)
Definition error := string.

Inductive result (A : Type) : Type :=
  | Ok (a : A)
  | Err (e : error).
Arguments Ok {A} a.
Arguments Err {A} e.

(** ** Configuration ([config.go], the nested shape) *)

Module HostConfig.
Record t : Type := Build {
  Proxy : string;   (* the virtual host name *)
  Host : string     (* the upstream base URL *)
}.
End HostConfig.

(** The anonymous nested structs of [Configuration.SSL] are flattened,
    each field keeping its path as its name. *)
Record Configuration : Type := {
  Prod : bool;
  Addr : string;
  LogLevel : string;
  StaticDir : string;
  Proxies : list HostConfig.t;
  SSL_RedirectHTTP_Enable : bool;
  SSL_RedirectHTTP_Addr : string;
  SSL_DisableLetsEncrypt : bool;
  SSL_Default_CertFile : string;
  SSL_Default_KeyFile : string
}.

(** The zero value [Configuration{}]. *)
Definition Configuration_zero : Configuration :=
  {| Prod := false; Addr := ""; LogLevel := ""; StaticDir := "";
     Proxies := [];
     SSL_RedirectHTTP_Enable := false; SSL_RedirectHTTP_Addr := "";
     SSL_DisableLetsEncrypt := false;
     SSL_Default_CertFile := ""; SSL_Default_KeyFile := "" |}.

Definition DefaultConfig : Configuration :=
  {| Prod := true; Addr := DefaultSSLAddr; LogLevel := "DEBUG";
     StaticDir := "."; Proxies := [];
     SSL_RedirectHTTP_Enable := true; SSL_RedirectHTTP_Addr := ":80";
     SSL_DisableLetsEncrypt := false;
     SSL_Default_CertFile := ""; SSL_Default_KeyFile := "" |}.

(** [cfg] with its route list replaced. *)
Definition with_Proxies (cfg : Configuration) (routes : list HostConfig.t)
  : Configuration :=
  {| Prod := Prod cfg; Addr := Addr cfg; LogLevel := LogLevel cfg;
     StaticDir := StaticDir cfg; Proxies := routes;
     SSL_RedirectHTTP_Enable := SSL_RedirectHTTP_Enable cfg;
     SSL_RedirectHTTP_Addr := SSL_RedirectHTTP_Addr cfg;
     SSL_DisableLetsEncrypt := SSL_DisableLetsEncrypt cfg;
     SSL_Default_CertFile := SSL_Default_CertFile cfg;
     SSL_Default_KeyFile := SSL_Default_KeyFile cfg |}.

(** [cfg] with its bind address replaced. *)
Definition with_Addr (cfg : Configuration) (addr : string) : Configuration :=
  {| Prod := Prod cfg; Addr := addr; LogLevel := LogLevel cfg;
     StaticDir := StaticDir cfg; Proxies := Proxies cfg;
     SSL_RedirectHTTP_Enable := SSL_RedirectHTTP_Enable cfg;
     SSL_RedirectHTTP_Addr := SSL_RedirectHTTP_Addr cfg;
     SSL_DisableLetsEncrypt := SSL_DisableLetsEncrypt cfg;
     SSL_Default_CertFile := SSL_Default_CertFile cfg;
     SSL_Default_KeyFile := SSL_Default_KeyFile cfg |}.

(** ** Requests and responses *)

Module Request.
(** The fields of [http.Request] the package reads. *)
Record t : Type := Build {
  Host : string;          (* the Host header, port included *)
  RequestURI : string;    (* path and query as sent *)
  URL_Path : string;
  URL_RawQuery : string
}.
End Request.

Inductive Body : Type :=
  | NoBody
  | Note (text : string)
  | FileContents (name : string)
  | DirectoryListing (name : string).

Record Response : Type := {
  StatusCode : Z;
  Location : string;   (* the Location header, empty when not set *)
  ResponseBody : Body
}.

Definition StatusMovedPermanently : Z := 301.
Definition StatusBadRequest : Z := 400.
Definition StatusNotFound : Z := 404.
Definition StatusOK : Z := 200.

(** [http.Handler]: what [ServeHTTP] answers to a request. *)
Definition Handler := Request.t → Response.

(** [resp.WriteHeader(code)] and nothing else. *)
Definition WriteHeader (code : Z) : Response :=
  {| StatusCode := code; Location := ""; ResponseBody := NoBody |}.

(** [http.Error]. *)
Definition http_Error (msg : string) (code : Z) : Response :=
  {| StatusCode := code; Location := ""; ResponseBody := Note msg |}.

(** [http.Redirect] to a target that carries its own scheme: the target
    becomes the Location header unchanged. *)
Definition http_Redirect (url : string) (code : Z) : Response :=
  {| StatusCode := code; Location := url; ResponseBody := Note url |}.

(** ** [http.ServeFile] of the Go library, for unconditional requests *)

Inductive FileInfo : Type := RegularFile | Directory.

(** What [os.Open] and [Stat] find under a name; [None]: no such file. *)
Definition FileSystem := string → option FileInfo.

Definition containsDotDot (v : string) : bool :=
  bool_decide (".." ∈ split_on isSlashRune v).

Definition localRedirect (r : Request.t) (newPath : string) : Response :=
  let q := Request.URL_RawQuery r in
  let newPath := if decide (q ≠ "") then newPath +:+ "?" +:+ q else newPath in
  {| StatusCode := StatusMovedPermanently; Location := newPath;
     ResponseBody := NoBody |}.

Definition http_ServeFile (fs : FileSystem) (r : Request.t) (name : string)
  : Response :=
  let url := Request.URL_Path r in
  if containsDotDot url then http_Error "invalid URL path" StatusBadRequest
  else if strings_HasSuffix url "/index.html" then localRedirect r "./"
  else
    match fs name with
    | None => http_Error "404 page not found" StatusNotFound
    | Some RegularFile =>
        {| StatusCode := StatusOK; Location := "";
           ResponseBody := FileContents name |}
    | Some Directory =>
        if decide (last_byte url ≠ Some "/"%char)
        then localRedirect r (path_Base url +:+ "/")
        else
          let index := trim_slash name +:+ "/index.html" in
          match fs index with
          | Some RegularFile =>
              {| StatusCode := StatusOK; Location := "";
                 ResponseBody := FileContents index |}
          | Some Directory =>
              {| StatusCode := StatusOK; Location := "";
                 ResponseBody := DirectoryListing index |}
          | None =>
              {| StatusCode := StatusOK; Location := "";
                 ResponseBody := DirectoryListing name |}
          end
    end.

(** ** Address normalisation *)

(** The process environment as [os.Getenv] sees it: an unset variable
    reads as the empty string. *)
Definition Environ := string → string.

(** [ParseHost]: the environment is consulted only for the empty address;
    afterwards a leading colon gets the default host name in front. *)
Definition ParseHost (Getenv : Environ) (addr : string) : string :=
  let a := addr in
  let a :=
    if decide (a = "") then
      if decide (Getenv "ADDR" ≠ "") then Getenv "ADDR"
      else if decide (Getenv "HOST" ≠ "") then Getenv "HOST"
      else if decide (Getenv "HOSTNAME" ≠ "") then
        let a := Getenv "HOSTNAME" in
        if decide (Getenv "PORT" ≠ "") then a +:+ ":" +:+ Getenv "PORT" else a
      else if decide (Getenv "PORT" ≠ "") then ":" +:+ Getenv "PORT"
      else DefaultServerAddr
    else a in
  let portIdx := strings_IndexByte a ":"%char in
  if (portIdx =? 0)%Z then
    if decide (slice_from (Z.to_nat portIdx) a = ":https")
    then DefaultServerHostname +:+ ":443"
    else DefaultServerHostname +:+ a
  else a.

(** ** Logging ([golog]) *)

Inductive Level : Type := FATAL | ERROR | WARN | INFO | DEBUG | TRACE.
Definition LogEntry : Type := Level * string.

(** The logger package [golog].  Its level is a global variable, here the
    first argument of [print]; [strings.ToUpper] is a parameter of
    [LogLevel]; a printed line is the text handed to [OutputLog.Print]. *)
Module golog.

Definition OFF : Z := 0.
Definition FATAL : Z := 1.
Definition ERROR : Z := 2.
Definition WARN : Z := 3.
Definition INFO : Z := 4.
Definition DEBUG : Z := 5.
Definition TRACE : Z := 6.

Definition RED : Z := 31.
Definition GREEN : Z := 32.
Definition YELLOW : Z := 33.

(** [LogLevel]: the level it sets and the flag it returns. *)
Definition LogLevel (ToUpper : string → string) (ll : string) : Z * bool :=
  let u := ToUpper ll in
  if decide (u = "FATAL") then (FATAL, true)
  else if decide (u = "ERROR") then (ERROR, true)
  else if decide (u = "WARN") then (WARN, true)
  else if decide (u = "INFO") then (INFO, true)
  else if decide (u = "DEBUG") then (DEBUG, true)
  else if decide (u = "TRACE") then (TRACE, true)
  else (INFO, false).

(** The name [print] writes for a level. *)
Definition tag (level : Z) : string :=
  if (level =? FATAL)%Z then "FATAL"
  else if (level =? ERROR)%Z then "ERROR"
  else if (level =? WARN)%Z then "WARN"
  else if (level =? INFO)%Z then "INFO"
  else if (level =? DEBUG)%Z then "DEBUG"
  else "TRACE".

(** The verb [%-5s]: spaces after the text up to five bytes. *)
Fixpoint pad_right (width : nat) (s : string) : string :=
  match width, s with
  | O, _ => s
  | S w, EmptyString => String " " (pad_right w EmptyString)
  | S w, String a rest => String a (pad_right w rest)
  end.

(** [print]: the line written, if the level lets it through. *)
Definition print (logLevel level : Z) (ns s : string) : option string :=
  if (logLevel >=? level)%Z
  then Some ("[" +:+ pad_right 5 (tag level) +:+ "] [" +:+ ns +:+ "] " +:+ s)
  else None.

(** [PrintColour]: the message between the escape sequences of a bold
    colour and of a reset (byte 27 opens each). *)
Definition PrintColour (logLevel level : Z) (ns s : string) (colour : Z)
  : option string :=
  print logLevel level ns
    (String (ascii_of_nat 27) ("[" +:+ strconv_Itoa colour +:+ ";1m") +:+ s
       +:+ String (ascii_of_nat 27) "[0m").

End golog.

(** The method of [GoLog] behind each level, applied to a formatted
    message: [Fatal], [Error], [Warn] and [Info] colour it, [Debug] and
    [Trace] do not.  ([Fatal] then ends the process.) *)
Definition GoLog_emit (logLevel : Z) (ns : string) (entry : LogEntry)
  : option string :=
  match entry.1 with
  | FATAL => golog.PrintColour logLevel golog.FATAL ns entry.2 golog.RED
  | ERROR => golog.PrintColour logLevel golog.ERROR ns entry.2 golog.RED
  | WARN => golog.PrintColour logLevel golog.WARN ns entry.2 golog.YELLOW
  | INFO => golog.PrintColour logLevel golog.INFO ns entry.2 golog.GREEN
  | DEBUG => golog.print logLevel golog.DEBUG ns entry.2
  | TRACE => golog.print logLevel golog.TRACE ns entry.2
  end.

(** ** Path elements *)

(** Whether a slash occurs in [s]. *)
Fixpoint has_slash (s : string) : bool :=
  match s with
  | EmptyString => false
  | String a rest => isSlash a || has_slash rest
  end.

(** A name that stands for itself in a path: not empty, no slash, and
    neither [.] nor [..]. *)
Definition proper_elem (e : string) : Prop :=
  has_slash e = false ∧ e ≠ "" ∧ e ≠ "." ∧ e ≠ "..".

(** ** Concrete stand-ins for the outside world, used in examples *)

(** A URL parser that fails as [net/url] does on an address whose scheme
    is missing (a leading colon) and hands back every other string. *)
Definition sample_url_Parse (rawurl : string) : result string :=
  if (strings_IndexByte rawurl ":"%char =? 0)%Z
  then Err ("parse " +:+ rawurl +:+ ": missing protocol scheme")
  else Ok rawurl.

(** An upstream that answers 200 with a note naming itself. *)
Definition sample_forward (target : string) (_ : Request.t) : Response :=
  {| StatusCode := StatusOK; Location := ""; ResponseBody := Note target |}.

(** A handler that answers 200 with the given note. *)
Definition sample_handler (tag : string) : Handler :=
  λ _, {| StatusCode := StatusOK; Location := ""; ResponseBody := Note tag |}.

(** A disk holding the site directory [www/a.com] with two pages. *)
Definition sample_fs : FileSystem :=
  λ name,
    if decide (name = "www") then Some Directory
    else if decide (name = "www/a.com") then Some Directory
    else if decide (name = "www/a.com/index.html") then Some RegularFile
    else if decide (name = "www/a.com/x.html") then Some RegularFile
    else None.

(** Two routes for [a.com] and [b.com] under a static root. *)
Definition sample_config (root : string) : Configuration :=
  {| Prod := false; Addr := ":8443"; LogLevel := "DEBUG"; StaticDir := root;
     Proxies := [HostConfig.Build "a.com" "http://one";
                 HostConfig.Build "b.com" "http://two"];
     SSL_RedirectHTTP_Enable := false; SSL_RedirectHTTP_Addr := ":80";
     SSL_DisableLetsEncrypt := true;
     SSL_Default_CertFile := ""; SSL_Default_KeyFile := "" |}.

(** A configuration bound to [:8443] with the given certificate files,
    automatic certificates disabled or not, in production or not. *)
Definition sample_tls_config (certFile keyFile : string) (disable prod : bool)
  : Configuration :=
  {| Prod := prod; Addr := ":8443"; LogLevel := "DEBUG"; StaticDir := "www";
     Proxies := [];
     SSL_RedirectHTTP_Enable := false; SSL_RedirectHTTP_Addr := ":80";
     SSL_DisableLetsEncrypt := disable;
     SSL_Default_CertFile := certFile; SSL_Default_KeyFile := keyFile |}.

(** [GET path] with the given Host header and no query. *)
Definition sample_request (host path : string) : Request.t :=
  {| Request.Host := host; Request.RequestURI := path;
     Request.URL_Path := path; Request.URL_RawQuery := "" |}.

(** An environment given by the list of the variables that are set. *)
Fixpoint env_of (vars : list (string * string)) : Environ :=
  λ key,
    match vars with
    | [] => ""
    | (k, v) :: rest => if decide (k = key) then v else env_of rest key
    end.

(** A machine on which every bind succeeds, every key pair loads (the
    certificate being the pair of file names) and the cache file opens. *)
Definition sample_bind (network addr : string) : option error := None.
Definition sample_LoadX509KeyPair (certFile keyFile : string)
  : result (string * string) :=
  if decide (certFile = "missing.pem") then Err "open missing.pem: no such file"
  else Ok (certFile, keyFile).
Definition sample_CacheFile (name : string) : option error := None.

Section Gomost.

(** ** The outside world *)

(** [*url.URL] and [tls.Certificate]. *)
Context {URL Certificate : Type}.

(** [url.Parse]. *)
Variable url_Parse : string → result URL.
(** What the upstream at a URL answers when a request is forwarded. *)
Variable forward : URL → Handler.
(** The disk. *)
Variable fs : FileSystem.
(** [os.Getenv]. *)
Variable Getenv : Environ.
(** The error, if any, of binding a socket with [net.Listen]. *)
Variable bind : string → string → option error.
(** [tls.LoadX509KeyPair]. *)
Variable tls_LoadX509KeyPair : string → string → result Certificate.
(** [letsencrypt.Manager.CacheFile]. *)
Variable Manager_CacheFile : string → option error.

(** ** The proxy ([proxy.go]) *)

(** [httputil.ReverseProxy], as built by [NewSingleHostReverseProxy]. *)
Inductive ReverseProxy : Type :=
  | NewSingleHostReverseProxy (target : URL).

Definition ReverseProxy_ServeHTTP (p : ReverseProxy) : Handler :=
  match p with NewSingleHostReverseProxy target => forward target end.

(** The struct [Proxy]: its configuration and its two tables.  The
    servers and the exit channel live in the run-time state below; the
    root handler is the function [proxyHandler] of the struct. *)
Record Proxy : Type := {
  config : Configuration;
  handlers : option (gmap string Handler);
  proxies : option (gmap string ReverseProxy)
}.

(** [&Proxy{}], before [Setup]. *)
Definition Proxy_zero : Proxy :=
  {| config := Configuration_zero; handlers := None; proxies := None |}.

(** [m[k]] with its [ok] flag; a [nil] map has no entries. *)
Definition map_index {V} (m : option (gmap string V)) (k : string) : option V :=
  m ≫= (.!! k).

(** One round of the loop over [config.Proxies]. *)
Definition Setup_route (st : gmap string ReverseProxy * list LogEntry)
    (proxy : HostConfig.t) : gmap string ReverseProxy * list LogEntry :=
  match url_Parse (HostConfig.Host proxy) with
  | Ok u =>
      (<[HostConfig.Proxy proxy := NewSingleHostReverseProxy u]> st.1, st.2)
  | Err err =>
      (st.1, (st.2 ++ [(WARN, "Could not parse Host: " +:+ err)])%list)
  end.

Definition Setup_routes (routes : list HostConfig.t)
  : gmap string ReverseProxy * list LogEntry :=
  foldl Setup_route (∅, []) routes.

(** [Setup]: the instance and the error it returns. *)
Definition Setup (cfg : Configuration) : Proxy * option error :=
  ({| config := cfg;
      handlers := Some ∅;
      proxies := Some (Setup_routes (Proxies cfg)).1 |}, None).

(** What [Setup] writes to the log. *)
Definition Setup_log (cfg : Configuration) : list LogEntry :=
  (Setup_routes (Proxies cfg)).2.

(** The branch the root handler takes, with what it hands the request to. *)
Inductive Dispatch : Type :=
  | ToHandler (handler : Handler)
  | ToProxy (proxy : ReverseProxy)
  | ToServeFile (name : string)
  | ToNotFound.

Definition dispatch (gm : Proxy) (req : Request.t) : Dispatch :=
  match map_index (handlers gm) (Request.Host req) with
  | Some handler => ToHandler handler
  | None =>
      match map_index (proxies gm) (Request.Host req) with
      | Some proxy => ToProxy proxy
      | None =>
          if decide (StaticDir (config gm) ≠ "")
          then ToServeFile (path_Join [StaticDir (config gm); Request.Host req])
          else ToNotFound
      end
  end.

(** [gm.proxyHandler]: the root handler closes over [gm], so it sees the
    tables as they are when the request arrives. *)
Definition proxyHandler (gm : Proxy) : Handler :=
  λ req,
    match dispatch gm req with
    | ToHandler handler => handler req
    | ToProxy proxy => ReverseProxy_ServeHTTP proxy req
    | ToServeFile name => http_ServeFile fs req name
    | ToNotFound => WriteHeader StatusNotFound
    end.

(** [AddHostHandler]: the instance afterwards and the error returned. *)
Definition AddHostHandler (host : string) (handler : Handler) (gm : Proxy)
  : Proxy * option error :=
  if decide (host = "") then (gm, Some "The host cannot be empty")
  else
    match handlers gm with
    | None => (gm, Some "Setup() must be called")
    | Some m =>
        ({| config := config gm;
            handlers := Some (<[host := handler]> m);
            proxies := proxies gm |}, None)
    end.

(** ** The redirect server (in [Listen]) *)

Definition realSSLPort (cfg : Configuration) : string :=
  let i := strings_Index_colon (Addr cfg) in
  if decide (i ≠ -1 ∧ slice_from (Z.to_nat (i + 1)) (Addr cfg) ≠ "443")
  then slice_from (Z.to_nat (i + 1)) (Addr cfg)
  else "".

Definition realHost (host : string) : string :=
  let i := strings_Index_colon host in
  if decide (i ≠ -1) then slice_to (Z.to_nat i) host else host.

(** The handler of [gm.vs]. *)
Definition redirectHandler (cfg : Configuration) : Handler :=
  λ r,
    let redirectTo :=
      "https://" +:+ realHost (Request.Host r) +:+ realSSLPort cfg
                 +:+ Request.RequestURI r in
    http_Redirect redirectTo StatusMovedPermanently.

(** ** Listeners *)

Inductive CertManager : Type :=
  | LetsEncryptManager (cacheFile : string)
  | AutocertManager (acceptTOS : bool) (cacheDir : string).

(** The fields of [tls.Config] the package sets. *)
Record tls_Config : Type := {
  Certificates : list Certificate;
  PreferServerCipherSuites : bool;
  GetCertificate : option CertManager
}.

Inductive Listener : Type :=
  | TCPListener (network addr : string)
  | tls_NewListener (inner : Listener) (tlsConfig : tls_Config).

Definition net_Listen (network addr : string) : result Listener :=
  match bind network addr with
  | None => Ok (TCPListener network addr)
  | Some err => Err err
  end.

Definition TCP4 (addr : string) : result Listener :=
  net_Listen "tcp4" (ParseHost Getenv addr).

Definition CERT (addr : string) (cert : Certificate) : result Listener :=
  match TCP4 addr with
  | Err err => Err err
  | Ok ln =>
      Ok (tls_NewListener ln
            {| Certificates := [cert];
               PreferServerCipherSuites := true;
               GetCertificate := None |})
  end.

Definition errCertKeyMissing : error :=
  "You should provide certFile and keyFile for TLS/SSL".

(** [errParseTLS.Format(certFile, keyFile, err)]; the two file names go
    through [%q], which puts a plain name between double quotes. *)
Definition errParseTLS (certFile keyFile err : string) : error :=
  "Couldn't load TLS, certFile=" +:+ quoted certFile
    +:+ ", keyFile=" +:+ quoted keyFile +:+ ". Trace: " +:+ err.

Definition TLS (addr certFile keyFile : string) : result Listener :=
  if decide (certFile = "" ∨ keyFile = "") then Err errCertKeyMissing
  else
    match tls_LoadX509KeyPair certFile keyFile with
    | Err err => Err (errParseTLS certFile keyFile err)
    | Ok cert => CERT addr cert
    end.

Definition LETSENCRYPT (addr : string) : result Listener :=
  let addr :=
    if decide (strings_IndexByte addr ":"%char = -1)
    then addr +:+ DefaultSSLAddr else addr in
  match TCP4 addr with
  | Err err => Err err
  | Ok ln =>
      match Manager_CacheFile "./letsencrypt.cache" with
      | Some err => Err err
      | None =>
          Ok (tls_NewListener ln
                {| Certificates := [];
                   PreferServerCipherSuites := false;
                   GetCertificate :=
                     Some (LetsEncryptManager "./letsencrypt.cache") |})
      end
  end.

Definition LETSENCRYPTPROD (addr : string) : result Listener :=
  let addr :=
    if decide (strings_IndexByte addr ":"%char = -1)
    then addr +:+ DefaultSSLAddr else addr in
  match TCP4 addr with
  | Err err => Err err
  | Ok ln =>
      Ok (tls_NewListener ln
            {| Certificates := [];
               PreferServerCipherSuites := false;
               GetCertificate := Some (AutocertManager true "./certcache") |})
  end.

(** The first part of [Listen]: the listener, or the error that
    [logger.Fatal] then reports. *)
Definition Listen_listener (cfg : Configuration) : result Listener :=
  let addr := ParseHost Getenv (Addr cfg) in
  if decide (SSL_Default_CertFile cfg ≠ "" ∧ SSL_Default_KeyFile cfg ≠ "")
  then TLS addr (SSL_Default_CertFile cfg) (SSL_Default_KeyFile cfg)
  else if negb (SSL_DisableLetsEncrypt cfg) then
    if Prod cfg then LETSENCRYPTPROD addr else LETSENCRYPT addr
  else TCP4 addr.


(** ** Run-time state of [Service], [Listen] and [Shutdown]

    [Service] runs on the caller's goroutine, [Listen] on the goroutine
    that [Service] launches, and every call of [Shutdown] on a goroutine of
    its own.  The exit channel is unbuffered: a send and a receive complete
    together, and a send on the [nil] channel never completes. *)

(** The value of the field [gm.exit]. *)
Inductive ChanRef : Type := nilChan | exitChan.

Inductive ServicePC : Type :=
  | SvcNotCalled
  | SvcEntered                      (* [gm.rs] is set, [gm.exit] not yet made *)
  | SvcReceiving                    (* blocked in [err = <-gm.exit] *)
  | SvcReturned (err : option error).

Inductive ListenPC : Type :=
  | LisNotStarted
  | LisProvisioning                 (* launched, before [gm.rs.Serve(ln)] *)
  | LisServing                      (* inside [gm.rs.Serve(ln)] *)
  | LisSending (err : option error) (* blocked in [gm.exit <- err] *)
  | LisDone
  | LisFatal (msg : string).        (* [logger.Fatal]: the process exits *)

Inductive ShutdownPC : Type :=
  | ShSending (c : ChanRef)         (* blocked in [gm.exit <- nil] *)
  | ShReturned.

Inductive Socket : Type :=
  | SockAbsent
  | SockOpen (ln : Listener)
  | SockClosed.

Record Runtime : Type := {
  gm_exit : ChanRef;
  service : ServicePC;
  listen : ListenPC;
  primary : Socket;                 (* the socket behind [ln] *)
  vs_started : bool;                (* the redirect server was launched *)
  shutdowns : list ShutdownPC       (* one entry per call of [Shutdown] *)
}.

Definition Runtime_init : Runtime :=
  {| gm_exit := nilChan; service := SvcNotCalled; listen := LisNotStarted;
     primary := SockAbsent; vs_started := false; shutdowns := [] |}.

Inductive Action : Type :=
  | Service_enter                   (* [Service] is called and sets [gm.rs] *)
  | Service_launch                  (* makes the channel, launches [Listen], blocks *)
  | Listen_provision                (* [Listen] up to the call of [Serve] *)
  | Serve_return (err : error)      (* [Serve] returns; it closes [ln] on its way out *)
  | Exit_from_Listen                (* [gm.exit <- gm.Listen()] meets the receive *)
  | Shutdown_call                   (* [Shutdown] is called and reaches its send *)
  | Exit_from_Shutdown (i : nat).   (* the send of the i-th call meets the receive *)

Definition fatal (w : Runtime) : bool :=
  match listen w with LisFatal _ => true | _ => false end.

(** One step of one goroutine; [None] when the step is not enabled. *)
Definition exec (cfg : Configuration) (a : Action) (w : Runtime)
  : option Runtime :=
  if fatal w then None else
  match a with
  | Service_enter =>
      match service w with
      | SvcNotCalled =>
          Some {| gm_exit := gm_exit w; service := SvcEntered;
                  listen := listen w; primary := primary w;
                  vs_started := vs_started w; shutdowns := shutdowns w |}
      | _ => None
      end
  | Service_launch =>
      match service w with
      | SvcEntered =>
          Some {| gm_exit := exitChan; service := SvcReceiving;
                  listen := LisProvisioning; primary := primary w;
                  vs_started := vs_started w; shutdowns := shutdowns w |}
      | _ => None
      end
  | Listen_provision =>
      match listen w with
      | LisProvisioning =>
          match Listen_listener cfg with
          | Ok ln =>
              Some {| gm_exit := gm_exit w; service := service w;
                      listen := LisServing; primary := SockOpen ln;
                      vs_started := SSL_RedirectHTTP_Enable cfg;
                      shutdowns := shutdowns w |}
          | Err err =>
              Some {| gm_exit := gm_exit w; service := service w;
                      listen := LisFatal ("Cannot get SSL listener: " +:+ err);
                      primary := primary w; vs_started := vs_started w;
                      shutdowns := shutdowns w |}
          end
      | _ => None
      end
  | Serve_return err =>
      match listen w with
      | LisServing =>
          Some {| gm_exit := gm_exit w; service := service w;
                  listen := LisSending (Some err); primary := SockClosed;
                  vs_started := vs_started w; shutdowns := shutdowns w |}
      | _ => None
      end
  | Exit_from_Listen =>
      match listen w, service w with
      | LisSending err, SvcReceiving =>
          Some {| gm_exit := gm_exit w; service := SvcReturned err;
                  listen := LisDone; primary := primary w;
                  vs_started := vs_started w; shutdowns := shutdowns w |}
      | _, _ => None
      end
  | Shutdown_call =>
      Some {| gm_exit := gm_exit w; service := service w;
              listen := listen w; primary := primary w;
              vs_started := vs_started w;
              shutdowns := (shutdowns w ++ [ShSending (gm_exit w)])%list |}
  | Exit_from_Shutdown i =>
      match shutdowns w !! i, service w with
      | Some (ShSending exitChan), SvcReceiving =>
          Some {| gm_exit := gm_exit w; service := SvcReturned None;
                  listen := listen w; primary := primary w;
                  vs_started := vs_started w;
                  shutdowns := <[i := ShReturned]> (shutdowns w) |}
      | _, _ => None
      end
  end.

(** A schedule, run from a state. *)
Fixpoint run (cfg : Configuration) (schedule : list Action) (w : Runtime)
  : option Runtime :=
  match schedule with
  | [] => Some w
  | a :: rest =>
      match exec cfg a w with
      | Some w' => run cfg rest w'
      | None => None
      end
  end.

(** The states some schedule reaches from the start. *)
Definition reachable (cfg : Configuration) (w : Runtime) : Prop :=
  ∃ schedule, run cfg schedule Runtime_init = Some w.

(** Once [Service] waits for the exit signal the channel exists. *)
Definition exit_made (w : Runtime) : Prop :=
  match service w with
  | SvcReceiving | SvcReturned _ => gm_exit w = exitChan
  | SvcNotCalled | SvcEntered => True
  end.

(** What the run-time states keep true: the socket follows the
    goroutine of [Listen], and a result of [Service] tells where it came
    from. *)
Definition socket_follows_Listen (cfg : Configuration) (w : Runtime) : Prop :=
  match listen w with
  | LisNotStarted | LisProvisioning | LisFatal _ => primary w = SockAbsent
  | LisServing => ∃ ln, Listen_listener cfg = Ok ln ∧ primary w = SockOpen ln
  | LisSending err => primary w = SockClosed ∧ is_Some err
  | LisDone => primary w = SockClosed
  end.

Definition result_has_origin (w : Runtime) : Prop :=
  match service w with
  | SvcReturned None => ShReturned ∈ shutdowns w
  | SvcReturned (Some _) => listen w = LisDone
  | SvcNotCalled | SvcEntered =>
      gm_exit w = nilChan ∧ listen w = LisNotStarted
  | SvcReceiving => True
  end.

(** The route table as the specification words it: the route of a host is
    the last entry of that name whose upstream URL parses. *)
Fixpoint latest_route (routes : list HostConfig.t) (host : string)
  : option ReverseProxy :=
  match routes with
  | [] => None
  | r :: rest =>
      match latest_route rest host with
      | Some p => Some p
      | None =>
          if decide (HostConfig.Proxy r = host) then
            match url_Parse (HostConfig.Host r) with
            | Ok u => Some (NewSingleHostReverseProxy u)
            | Err _ => None
            end
          else None
      end
  end.

(** The entries whose upstream URL parses. *)
Definition parses (r : HostConfig.t) : bool :=
  match url_Parse (HostConfig.Host r) with Ok _ => true | Err _ => false end.

(** * Properties *)

(** ** Strings *)

Lemma strings_IndexByte_lower s c : (-1 ≤ strings_IndexByte s c)%Z.
Proof.
  induction s as [|a s IH]; simpl; [lia|].
  destruct (Ascii.eqb a c); [lia|].
  destruct (Z.eqb_spec (strings_IndexByte s c) (-1)); lia.
Qed.

Lemma strings_IndexByte_app_absent h c rest :
  strings_IndexByte h c = -1 →
  strings_IndexByte (h +:+ String c rest) c = Z.of_nat (String.length h).
Proof.
  induction h as [|a h IH]; simpl.
  - intros _. by rewrite Ascii.eqb_refl.
  - destruct (Ascii.eqb a c); [lia|].
    destruct (Z.eqb_spec (strings_IndexByte h c) (-1)) as [E|E].
    + intros _. rewrite (IH E).
      destruct (Z.eqb_spec (Z.of_nat (String.length h)) (-1)); lia.
    + pose proof (strings_IndexByte_lower h c). lia.
Qed.

Lemma slice_to_app h rest : slice_to (String.length h) (h +:+ rest) = h.
Proof. induction h as [|a h IH]; simpl; [by destruct rest | by rewrite IH]. Qed.

Lemma append_nonempty_neq h a rest : h +:+ String a rest ≠ h.
Proof. induction h as [|b h IH]; simpl; [done | intros [=]; done]. Qed.

(** ** The route table built by [Setup] *)

Lemma Setup_route_fold st routes host :
  (foldl Setup_route st routes).1 !! host =
  match latest_route routes host with
  | Some p => Some p
  | None => st.1 !! host
  end.
Proof.
  revert st. induction routes as [|r routes IH]; intros st; simpl; [done|].
  rewrite IH. destruct (latest_route routes host); [done|].
  unfold Setup_route.
  destruct (url_Parse (HostConfig.Host r)) as [u|e]; simpl.
  - rewrite lookup_insert. repeat case_decide; try done; congruence.
  - by case_decide.
Qed.

Lemma Setup_proxies cfg host :
  map_index (proxies (Setup cfg).1) host = latest_route (Proxies cfg) host.
Proof.
  simpl. unfold Setup_routes. rewrite Setup_route_fold.
  by destruct (latest_route _ _).
Qed.

Lemma latest_route_app l1 l2 host :
  latest_route (l1 ++ l2) host =
  match latest_route l2 host with
  | Some p => Some p
  | None => latest_route l1 host
  end.
Proof.
  induction l1 as [|r l1 IH]; simpl; [by destruct (latest_route l2 host)|].
  rewrite IH. by destruct (latest_route l2 host).
Qed.

Lemma latest_route_absent routes host :
  Forall (λ r, HostConfig.Proxy r ≠ host) routes →
  latest_route routes host = None.
Proof.
  induction 1 as [|r routes Hr _ IH]; simpl; [done|].
  rewrite IH. by case_decide.
Qed.

Lemma latest_route_filter routes host :
  latest_route (List.filter parses routes) host = latest_route routes host.
Proof.
  induction routes as [|r routes IH]; [done|].
  simpl. unfold parses at 1.
  destruct (url_Parse (HostConfig.Host r)) as [u|e] eqn:E; simpl.
  - by rewrite IH, E.
  - rewrite IH. destruct (latest_route routes host); [done|]. by case_decide.
Qed.

Lemma Setup_log_fold st routes :
  (foldl Setup_route st routes).2 =
  (st.2 ++ flat_map (λ r, match url_Parse (HostConfig.Host r) with
                          | Ok _ => []
                          | Err err => [(WARN, "Could not parse Host: " +:+ err)]
                          end) routes)%list.
Proof.
  revert st. induction routes as [|r routes IH]; intros st; simpl.
  - by rewrite app_nil_r.
  - rewrite IH. unfold Setup_route.
    destruct (url_Parse (HostConfig.Host r)); simpl; [done|].
    by rewrite <- app_assoc.
Qed.

Lemma latest_route_parsed routes r u :
  r ∈ routes → url_Parse (HostConfig.Host r) = Ok u →
  is_Some (latest_route routes (HostConfig.Proxy r)).
Proof.
  intros Hin Hu. induction routes as [|r' routes IH]; [by apply elem_of_nil in Hin|].
  simpl. apply elem_of_cons in Hin as [<-|Hin].
  - destruct (latest_route routes _); [by eexists|].
    rewrite decide_True by done. rewrite Hu. by eexists.
  - destruct (IH Hin) as [p ->]. by eexists.
Qed.

Lemma latest_route_unparsed routes host :
  Forall (λ r, HostConfig.Proxy r = host → parses r = false) routes →
  latest_route routes host = None.
Proof.
  induction 1 as [|r routes Hr _ IH]; simpl; [done|].
  rewrite IH. case_decide as E; [|done].
  specialize (Hr E). unfold parses in Hr.
  by destruct (url_Parse (HostConfig.Host r)).
Qed.

(** ** The dispatcher *)

(** C1: the root handler tries the local handler, the proxy route, the
    static fallback and the 404 in this order, each on the exact Host
    header: a handler registered for the host answers whatever the route
    table and the static root are; without one the route of the host
    forwards; without either a non-empty static root hands the request to
    the file server; otherwise the status is 404. *)
Theorem proxyHandler_priority (gm : Proxy) (req : Request.t) :
  (∀ handler,
     map_index (handlers gm) (Request.Host req) = Some handler →
     dispatch gm req = ToHandler handler ∧
     proxyHandler gm req = handler req) ∧
  (∀ proxy,
     map_index (handlers gm) (Request.Host req) = None →
     map_index (proxies gm) (Request.Host req) = Some proxy →
     dispatch gm req = ToProxy proxy ∧
     proxyHandler gm req = ReverseProxy_ServeHTTP proxy req) ∧
  (map_index (handlers gm) (Request.Host req) = None →
   map_index (proxies gm) (Request.Host req) = None →
   StaticDir (config gm) ≠ "" →
   dispatch gm req =
     ToServeFile (path_Join [StaticDir (config gm); Request.Host req]) ∧
   proxyHandler gm req =
     http_ServeFile fs req
       (path_Join [StaticDir (config gm); Request.Host req])) ∧
  (map_index (handlers gm) (Request.Host req) = None →
   map_index (proxies gm) (Request.Host req) = None →
   StaticDir (config gm) = "" →
   dispatch gm req = ToNotFound ∧
   StatusCode (proxyHandler gm req) = StatusNotFound).
Proof.
  unfold proxyHandler, dispatch.
  split; [|split; [|split]].
  - by intros handler ->.
  - by intros proxy -> ->.
  - intros -> -> Hdir. by rewrite decide_True.
  - intros -> -> Hdir. by rewrite decide_False by (by intros []).
Qed.

(** C3 (amended): with no handler and no route for the host and a
    non-empty static root, the request is answered by the file server for
    the one name [path.Join(staticRoot, host)], the file or directory of
    the host itself; the requested path is not part of that name, so
    requests for the same host are all served from it; and when nothing
    exists under that name the answer is 404 (for a path with no [..]
    element that does not end in [/index.html]). *)
Theorem static_fallback_serves_host_entry (gm : Proxy) (req : Request.t) :
  map_index (handlers gm) (Request.Host req) = None →
  map_index (proxies gm) (Request.Host req) = None →
  StaticDir (config gm) ≠ "" →
  proxyHandler gm req =
    http_ServeFile fs req
      (path_Join [StaticDir (config gm); Request.Host req]) ∧
  (∀ req', Request.Host req' = Request.Host req →
           dispatch gm req' = dispatch gm req) ∧
  (fs (path_Join [StaticDir (config gm); Request.Host req]) = None →
   containsDotDot (Request.URL_Path req) = false →
   strings_HasSuffix (Request.URL_Path req) "/index.html" = false →
   proxyHandler gm req = http_Error "404 page not found" StatusNotFound).
Proof.
  intros Hh Hp Hdir.
  assert (proxyHandler gm req =
            http_ServeFile fs req
              (path_Join [StaticDir (config gm); Request.Host req])) as E.
  { unfold proxyHandler, dispatch. rewrite Hh, Hp. by rewrite decide_True. }
  split; [done|]. split.
  - intros req' Hsame. unfold dispatch. by rewrite Hsame.
  - intros Hno Hdd Hidx. rewrite E. unfold http_ServeFile.
    by rewrite Hdd, Hidx, Hno.
Qed.

(** ** Registration *)

(** C7: [AddHostHandler] answers the empty host with the invalid-argument
    error, an instance whose handler table was never made with the
    not-initialised error, and otherwise stores the handler under the
    host, replacing what was there: of two registrations for one host the
    second serves the next request.  After [Setup] the table exists. *)
Theorem AddHostHandler_spec (gm : Proxy) (host : string) (h1 h2 : Handler) :
  AddHostHandler "" h1 gm = (gm, Some "The host cannot be empty") ∧
  (host ≠ "" → handlers gm = None →
   AddHostHandler host h1 gm = (gm, Some "Setup() must be called")) ∧
  (host ≠ "" → ∀ m, handlers gm = Some m →
   (AddHostHandler host h1 gm).2 = None ∧
   handlers (AddHostHandler host h1 gm).1 = Some (<[host := h1]> m) ∧
   config (AddHostHandler host h1 gm).1 = config gm ∧
   proxies (AddHostHandler host h1 gm).1 = proxies gm) ∧
  (host ≠ "" → is_Some (handlers gm) →
   ∀ req, Request.Host req = host →
     proxyHandler (AddHostHandler host h2 (AddHostHandler host h1 gm).1).1 req
     = h2 req) ∧
  (∀ cfg, handlers (Setup cfg).1 = Some ∅).
Proof.
  unfold AddHostHandler.
  split; [done|]. split; [|split; [|split; [|done]]].
  - intros Hne Hnil. rewrite decide_False by done. by rewrite Hnil.
  - intros Hne m Hm. rewrite decide_False by done. by rewrite Hm.
  - intros Hne [m Hm] req Hreq. rewrite !decide_False by done.
    rewrite Hm. simpl. unfold proxyHandler, dispatch. simpl.
    rewrite Hreq. by rewrite lookup_insert_eq.
Qed.

(** ** [Setup] *)

(** C8: [Setup] returns no error for every configuration; a route whose
    upstream URL does not parse is skipped, the table being the one built
    from the other routes alone; every route whose URL parses has its host
    in the table; a host all of whose routes fail to parse has no entry;
    and the log holds one warning for each route that fails, in order. *)
Theorem Setup_skips_unparsable_routes (cfg : Configuration) :
  (Setup cfg).2 = None ∧
  (∀ host,
     map_index (proxies (Setup cfg).1) host =
     map_index
       (proxies (Setup (with_Proxies cfg (List.filter parses (Proxies cfg)))).1)
       host) ∧
  (∀ r u, r ∈ Proxies cfg → url_Parse (HostConfig.Host r) = Ok u →
     is_Some (map_index (proxies (Setup cfg).1) (HostConfig.Proxy r))) ∧
  (∀ host,
     Forall (λ r, HostConfig.Proxy r = host → parses r = false) (Proxies cfg) →
     map_index (proxies (Setup cfg).1) host = None) ∧
  Setup_log cfg =
    flat_map (λ r, match url_Parse (HostConfig.Host r) with
                   | Ok _ => []
                   | Err err => [(WARN, "Could not parse Host: " +:+ err)]
                   end) (Proxies cfg).
Proof.
  split; [done|]. split; [|split; [|split]].
  - intros host. rewrite !Setup_proxies. simpl.
    by rewrite latest_route_filter.
  - intros r u Hin Hu. rewrite Setup_proxies. by eapply latest_route_parsed.
  - intros host Hall. rewrite Setup_proxies. by apply latest_route_unparsed.
  - unfold Setup_log, Setup_routes. by rewrite Setup_log_fold.
Qed.

(** C9 (amended): when exactly two routes carry the same host name, the
    table holds one route for that host: the one of the later entry when
    its upstream URL parses; the one of the earlier entry when only that
    one parses; none when neither parses. *)
Theorem Setup_duplicate_host (cfg : Configuration)
    (pre mid post : list HostConfig.t) (r1 r2 : HostConfig.t) (host : string) :
  Proxies cfg = (pre ++ r1 :: mid ++ r2 :: post)%list →
  HostConfig.Proxy r1 = host → HostConfig.Proxy r2 = host →
  Forall (λ r, HostConfig.Proxy r ≠ host) (pre ++ mid ++ post) →
  map_index (proxies (Setup cfg).1) host =
    match url_Parse (HostConfig.Host r2), url_Parse (HostConfig.Host r1) with
    | Ok u2, _ => Some (NewSingleHostReverseProxy u2)
    | Err _, Ok u1 => Some (NewSingleHostReverseProxy u1)
    | Err _, Err _ => None
    end.
Proof.
  intros Hcfg H1 H2 Hother.
  apply Forall_app in Hother as [Hpre Hother].
  apply Forall_app in Hother as [Hmid Hpost].
  rewrite Setup_proxies, Hcfg.
  rewrite latest_route_app. simpl. rewrite latest_route_app. simpl.
  rewrite (latest_route_absent post), (latest_route_absent mid),
    (latest_route_absent pre) by done.
  rewrite !decide_True by done.
  destruct (url_Parse (HostConfig.Host r2)); [done|].
  by destruct (url_Parse (HostConfig.Host r1)).
Qed.

(** C10: the tables are indexed by the Host header as it came, port
    included.  For a host name [h] without a colon and a request whose
    Host header is [h], a colon and a port: registering a handler for [h]
    leaves the dispatch of the request as it was, and so does a route for
    [h] in the configuration; the redirect server, for its part, reads
    the same header as [h]. *)
Theorem dispatch_key_keeps_port (gm : Proxy) (h port : string)
    (req : Request.t) :
  strings_Index_colon h = -1 →
  Request.Host req = h +:+ ":" +:+ port →
  (∀ handler,
     dispatch (AddHostHandler h handler gm).1 req = dispatch gm req) ∧
  (∀ cfg pre post route,
     HostConfig.Proxy route = h →
     map_index
       (proxies (Setup (with_Proxies cfg (pre ++ route :: post))).1)
       (Request.Host req) =
     map_index (proxies (Setup (with_Proxies cfg (pre ++ post))).1)
       (Request.Host req)) ∧
  (∀ cfg handler route,
     HostConfig.Proxy route = h →
     dispatch (AddHostHandler h handler (Setup (with_Proxies cfg [route])).1).1
       req =
     if decide (StaticDir cfg ≠ "")
     then ToServeFile (path_Join [StaticDir cfg; Request.Host req])
     else ToNotFound) ∧
  realHost (Request.Host req) = h.
Proof.
  intros Hcolon Hhost.
  assert (h ≠ Request.Host req) as Hne.
  { rewrite Hhost. intros E. symmetry in E. revert E. apply append_nonempty_neq. }
  split; [|split; [|split]].
  - intros handler. unfold AddHostHandler.
    case_decide; [done|]. destruct (handlers gm) as [m|] eqn:Hm; [|done].
    unfold dispatch. simpl. rewrite Hm. simpl.
    by rewrite lookup_insert_ne.
  - intros cfg pre post route Hroute. rewrite !Setup_proxies. simpl.
    rewrite !latest_route_app. simpl.
    destruct (latest_route post _); [done|].
    by rewrite decide_False by congruence.
  - intros cfg handler route Hroute. unfold AddHostHandler.
    destruct (decide (h = "")) as [->|Hh].
    + unfold dispatch. simpl. rewrite lookup_empty.
      unfold Setup_routes. simpl. unfold Setup_route.
      destruct (url_Parse _); simpl; [|by rewrite lookup_empty].
      rewrite lookup_insert_ne by congruence. by rewrite lookup_empty.
    + simpl. unfold dispatch. simpl. rewrite lookup_insert_ne by done.
      rewrite lookup_empty.
      unfold Setup_routes. simpl. unfold Setup_route.
      destruct (url_Parse _); simpl; [|by rewrite lookup_empty].
      rewrite lookup_insert_ne by congruence. by rewrite lookup_empty.
  - rewrite Hhost. unfold realHost, strings_Index_colon in *.
    change (":" +:+ port) with (String ":" port).
    rewrite strings_IndexByte_app_absent by done.
    rewrite decide_True by lia. rewrite Nat2Z.id. apply slice_to_app.
Qed.

(** ** Address normalisation *)

Lemma ParseHost_nonempty addr :
  addr ≠ "" →
  ParseHost Getenv addr =
    if (strings_IndexByte addr ":"%char =? 0)%Z then
      if decide (addr = ":https") then "0.0.0.0:443" else "0.0.0.0" +:+ addr
    else addr.
Proof.
  intros Hne. unfold ParseHost. rewrite decide_False by done.
  destruct (Z.eqb_spec (strings_IndexByte addr ":"%char) 0) as [->|]; done.
Qed.

Lemma ParseHost_shape addr :
  ParseHost Getenv addr ≠ "" ∧
  strings_IndexByte (ParseHost Getenv addr) ":"%char ≠ 0.
Proof.
  unfold ParseHost. cbv zeta.
  match goal with
  | |- context [(strings_IndexByte ?x ":"%char =? 0)%Z] => set (a := x)
  end.
  assert (a ≠ "") as Ha.
  { subst a. repeat case_decide; try done.
    all: by destruct (Getenv "HOSTNAME"). }
  destruct (Z.eqb_spec (strings_IndexByte a ":"%char) 0) as [E|E].
  - rewrite E. case_decide; [done|]. split; [done|].
    simpl. clear E. pose proof (strings_IndexByte_lower a ":"%char).
    repeat match goal with
           | |- context [(?i + 1 =? -1)%Z] => destruct (Z.eqb_spec (i + 1) (-1))
           | |- context [(?i =? -1)%Z] => destruct (Z.eqb_spec i (-1))
           end; lia.
  - done.
Qed.

Lemma ParseHost_idempotent addr :
  ParseHost Getenv (ParseHost Getenv addr) = ParseHost Getenv addr.
Proof.
  destruct (ParseHost_shape addr) as [Hne Hidx].
  rewrite ParseHost_nonempty by done.
  by destruct (Z.eqb_spec (strings_IndexByte (ParseHost Getenv addr) ":"%char) 0).
Qed.

(** Settles the tests on the environment from the hypotheses at hand. *)
Ltac decide_env :=
  repeat first
    [ rewrite decide_True by congruence
    | rewrite decide_False by congruence ].

(** Splits on whether the colon comes first. *)
Ltac split_idx :=
  match goal with
  | |- context [(?i =? 0)%Z] => destruct (Z.eqb_spec i 0) as [->|]
  end.

(** C4 (amended): only the empty address falls back on the environment,
    in the order [ADDR], [HOST], [HOSTNAME] (followed by a colon and
    [PORT] when that is set), [PORT] alone behind a colon, and the default
    [0.0.0.0:8080]; a non-empty address is not replaced, colon or no
    colon.  In both cases an address that starts with a colon then gets
    [0.0.0.0] in front, [:https] becoming [0.0.0.0:443], and any other
    address is returned as it is.  The three sample addresses normalise
    as the specification says. *)
Theorem ParseHost_spec :
  (∀ addr, addr ≠ "" → strings_IndexByte addr ":"%char ≠ 0 →
           ParseHost Getenv addr = addr) ∧
  (∀ rest, ParseHost Getenv (String ":" rest) =
           if decide (rest = "https") then "0.0.0.0:443"
           else "0.0.0.0:" +:+ rest) ∧
  (Getenv "ADDR" ≠ "" →
   ParseHost Getenv "" = ParseHost Getenv (Getenv "ADDR")) ∧
  (Getenv "ADDR" = "" → Getenv "HOST" ≠ "" →
   ParseHost Getenv "" = ParseHost Getenv (Getenv "HOST")) ∧
  (Getenv "ADDR" = "" → Getenv "HOST" = "" → Getenv "HOSTNAME" ≠ "" →
   ParseHost Getenv "" =
     if decide (Getenv "PORT" ≠ "")
     then ParseHost Getenv (Getenv "HOSTNAME" +:+ ":" +:+ Getenv "PORT")
     else ParseHost Getenv (Getenv "HOSTNAME")) ∧
  (Getenv "ADDR" = "" → Getenv "HOST" = "" → Getenv "HOSTNAME" = "" →
   Getenv "PORT" ≠ "" →
   ParseHost Getenv "" = ParseHost Getenv (":" +:+ Getenv "PORT")) ∧
  (Getenv "ADDR" = "" → Getenv "HOST" = "" → Getenv "HOSTNAME" = "" →
   Getenv "PORT" = "" →
   ParseHost Getenv "" = "0.0.0.0:8080") ∧
  (Getenv "ADDR" = "" → Getenv "HOST" = "" →
   Getenv "HOSTNAME" = "example.com" → Getenv "PORT" = "9090" →
   ParseHost Getenv "" = "example.com:9090") ∧
  ParseHost Getenv ":9090" = "0.0.0.0:9090" ∧
  ParseHost Getenv ":https" = "0.0.0.0:443".
Proof.
  split; [|split].
  - intros addr Hne Hidx. rewrite ParseHost_nonempty by done.
    by destruct (Z.eqb_spec (strings_IndexByte addr ":"%char) 0).
  - intros rest. rewrite ParseHost_nonempty by done. simpl.
    repeat case_decide; simplify_eq; done.
  - repeat split.
    + intros H1. rewrite (ParseHost_nonempty (Getenv "ADDR")) by done.
      unfold ParseHost. cbv zeta. decide_env. by split_idx.
    + intros H1 H2. rewrite (ParseHost_nonempty (Getenv "HOST")) by done.
      unfold ParseHost. cbv zeta. decide_env. by split_idx.
    + intros H1 H2 H3.
      assert (Getenv "HOSTNAME" +:+ ":" +:+ Getenv "PORT" ≠ "") as Hne
        by (by destruct (Getenv "HOSTNAME")).
      rewrite (ParseHost_nonempty _ Hne), (ParseHost_nonempty _ H3).
      unfold ParseHost. cbv zeta. decide_env. case_decide; by split_idx.
    + intros H1 H2 H3 H4. rewrite (ParseHost_nonempty (":" +:+ _)) by done.
      unfold ParseHost. cbv zeta. decide_env. by split_idx.
    + intros H1 H2 H3 H4. unfold ParseHost. cbv zeta. by decide_env.
    + intros H1 H2 H3 H4. unfold ParseHost. cbv zeta. decide_env.
      by rewrite H3, H4.
Qed.

(** ** The redirect server *)

(** What the redirect handler sends for any address and request: the
    host up to its first colon, then the bind address from just after its
    first colon (unless that part is [443] or there is no colon), then the
    request URI. *)
Lemma redirectHandler_Location cfg r :
  StatusCode (redirectHandler cfg r) = StatusMovedPermanently ∧
  Location (redirectHandler cfg r) =
    "https://" +:+ realHost (Request.Host r) +:+ realSSLPort cfg
               +:+ Request.RequestURI r.
Proof. done. Qed.

Lemma realSSLPort_of_colon_address port :
  realSSLPort (with_Addr DefaultConfig (":" +:+ port)) =
    if decide (port = "443") then "" else port.
Proof.
  unfold realSSLPort, strings_Index_colon. simpl.
  destruct (decide (port = "443")) as [->|Hport]; [done|].
  by rewrite decide_True.
Qed.

(** C2: the redirect for the bind address [:8443] and the request
    [GET /path?x=1] with Host [example.com:8443], as the code computes it:
    a 301 whose Location has the port digits glued to the host name, the
    colon before the port being lost with the slice [Addr[i+1:]]. *)
Theorem redirectHandler_at_8443 :
  StatusCode
    (redirectHandler (with_Addr DefaultConfig ":8443")
       {| Request.Host := "example.com:8443";
          Request.RequestURI := "/path?x=1";
          Request.URL_Path := "/path";
          Request.URL_RawQuery := "x=1" |}) = 301 ∧
  Location
    (redirectHandler (with_Addr DefaultConfig ":8443")
       {| Request.Host := "example.com:8443";
          Request.RequestURI := "/path?x=1";
          Request.URL_Path := "/path";
          Request.URL_RawQuery := "x=1" |})
  = "https://example.com8443/path?x=1" ∧
  realSSLPort (with_Addr DefaultConfig ":8443") = "8443" ∧
  Location
    (redirectHandler (with_Addr DefaultConfig ":443")
       {| Request.Host := "example.com";
          Request.RequestURI := "/path?x=1";
          Request.URL_Path := "/path";
          Request.URL_RawQuery := "x=1" |})
  = "https://example.com/path?x=1".
Proof. repeat split; reflexivity. Qed.

(** ** Listeners *)

Lemma TCP4_ParseHost addr : TCP4 (ParseHost Getenv addr) = TCP4 addr.
Proof. unfold TCP4. by rewrite ParseHost_idempotent. Qed.

Lemma strings_IndexByte_ParseHost_absent addr :
  strings_IndexByte (ParseHost Getenv addr) ":"%char = -1 →
  ParseHost Getenv (ParseHost Getenv addr +:+ DefaultSSLAddr)
  = ParseHost Getenv addr +:+ DefaultSSLAddr.
Proof.
  intros Habs. destruct (ParseHost_shape addr) as [Hne _].
  rewrite ParseHost_nonempty by (by destruct (ParseHost Getenv addr)).
  unfold DefaultSSLAddr.
  rewrite (strings_IndexByte_app_absent _ _ "443" Habs).
  destruct (ParseHost Getenv addr) as [|a rest]; [done|].
  simpl String.length. by destruct (Z.eqb_spec (Z.of_nat (S (String.length rest))) 0).
Qed.

(** C5: [Listen] picks its listener by strict priority.  With both
    certificate paths set it is the result of [TLS] on them: an error
    when the key pair does not load, and on success a TLS listener over
    the TCP listener whose only certificate is the loaded one.  Otherwise,
    unless automatic certificates are disabled, it is the ACME listener,
    the production one exactly when [Prod] is set, a TLS listener whose
    certificates come from the manager of that variant.  Otherwise it is
    the plain TCP listener. *)
Theorem Listen_listener_priority (cfg : Configuration) :
  (SSL_Default_CertFile cfg ≠ "" → SSL_Default_KeyFile cfg ≠ "" →
   Listen_listener cfg =
     TLS (ParseHost Getenv (Addr cfg))
       (SSL_Default_CertFile cfg) (SSL_Default_KeyFile cfg) ∧
   (∀ err,
      tls_LoadX509KeyPair (SSL_Default_CertFile cfg) (SSL_Default_KeyFile cfg)
        = Err err →
      Listen_listener cfg =
        Err (errParseTLS (SSL_Default_CertFile cfg) (SSL_Default_KeyFile cfg)
               err)) ∧
   (∀ ln, Listen_listener cfg = Ok ln →
      ∃ cert,
        tls_LoadX509KeyPair (SSL_Default_CertFile cfg)
          (SSL_Default_KeyFile cfg) = Ok cert ∧
        ln = tls_NewListener
               (TCPListener "tcp4" (ParseHost Getenv (Addr cfg)))
               {| Certificates := [cert];
                  PreferServerCipherSuites := true;
                  GetCertificate := None |})) ∧
  (¬ (SSL_Default_CertFile cfg ≠ "" ∧ SSL_Default_KeyFile cfg ≠ "") →
   SSL_DisableLetsEncrypt cfg = false →
   Listen_listener cfg =
     (if Prod cfg then LETSENCRYPTPROD (ParseHost Getenv (Addr cfg))
      else LETSENCRYPT (ParseHost Getenv (Addr cfg))) ∧
   (∀ ln, Listen_listener cfg = Ok ln →
        ln = tls_NewListener
               (TCPListener "tcp4"
                  (if decide (strings_IndexByte (ParseHost Getenv (Addr cfg))
                                ":"%char = -1)
                   then ParseHost Getenv (Addr cfg) +:+ ":443"
                   else ParseHost Getenv (Addr cfg)))
               {| Certificates := [];
                  PreferServerCipherSuites := false;
                  GetCertificate :=
                    Some (if Prod cfg
                          then AutocertManager true "./certcache"
                          else LetsEncryptManager "./letsencrypt.cache") |})) ∧
  (¬ (SSL_Default_CertFile cfg ≠ "" ∧ SSL_Default_KeyFile cfg ≠ "") →
   SSL_DisableLetsEncrypt cfg = true →
   Listen_listener cfg = TCP4 (ParseHost Getenv (Addr cfg)) ∧
   (∀ ln, Listen_listener cfg = Ok ln →
      ln = TCPListener "tcp4" (ParseHost Getenv (Addr cfg)))).
Proof.
  unfold Listen_listener. split; [|split].
  - intros Hc Hk. rewrite decide_True by done. split; [done|].
    unfold TLS. rewrite decide_False by tauto. split.
    + by intros err ->.
    + intros ln.
      destruct (tls_LoadX509KeyPair _ _) as [cert|err]; [|done].
      unfold CERT. rewrite TCP4_ParseHost. unfold TCP4, net_Listen.
      destruct (bind _ _); [done|]. intros [= <-]. by exists cert.
  - intros Hno Hle. rewrite decide_False by done. rewrite Hle. simpl.
    split; [done|]. intros ln.
    destruct (Prod cfg); unfold LETSENCRYPTPROD, LETSENCRYPT;
      (case_decide as Hidx;
       [ unfold TCP4; rewrite (strings_IndexByte_ParseHost_absent _ Hidx)
       | rewrite TCP4_ParseHost; unfold TCP4 ]);
      unfold net_Listen; destruct (bind _ _); try done;
      try destruct (Manager_CacheFile _); try done;
      by intros [= <-].
  - intros Hno Hle. rewrite decide_False by done. rewrite Hle. simpl.
    split; [done|]. intros ln. rewrite TCP4_ParseHost.
    unfold TCP4, net_Listen. destruct (bind _ _); [done|]. by intros [= <-].
Qed.

(** ** [Service] and [Shutdown] *)

Lemma exec_exit_made cfg a w w' :
  exit_made w → exec cfg a w = Some w' → exit_made w'.
Proof.
  unfold exit_made, exec. intros Hinv.
  destruct (fatal w); [done|].
  destruct a; simpl.
  - destruct (service w); intros [= <-]; done.
  - destruct (service w); intros [= <-]; done.
  - destruct (listen w); try done.
    destruct (Listen_listener cfg); intros [= <-]; done.
  - destruct (listen w); intros [= <-]; done.
  - destruct (listen w); try done.
    destruct (service w); intros [= <-]; done.
  - intros [= <-]; done.
  - destruct (shutdowns w !! i) as [[[]|]|]; try done.
    destruct (service w); intros [= <-]; done.
Qed.

Lemma run_exit_made cfg schedule w w' :
  exit_made w → run cfg schedule w = Some w' → exit_made w'.
Proof.
  revert w. induction schedule as [|a schedule IH]; intros w Hinv; simpl.
  - by intros [= <-].
  - destruct (exec cfg a w) as [w1|] eqn:E; [|done].
    apply IH. by eapply exec_exit_made.
Qed.

Lemma reachable_exit_made cfg w : reachable cfg w → exit_made w.
Proof. intros [schedule Hrun]. by eapply run_exit_made; [|done]. Qed.

(** C6 (amended): in every state the program can reach in which
    [Service] is blocked on the exit channel (and the process has not
    exited on a fatal error), a call of [Shutdown] can hand its [nil]
    to [Service] in one exchange, after which [Service] has returned no
    error.  The exchange changes nothing else: the primary socket and the
    goroutine serving on it are as they were before the call. *)
Theorem Shutdown_unblocks_Service (cfg : Configuration) (w : Runtime) :
  reachable cfg w →
  service w = SvcReceiving →
  fatal w = false →
  ∃ w',
    run cfg [Shutdown_call; Exit_from_Shutdown (length (shutdowns w))] w
      = Some w' ∧
    service w' = SvcReturned None ∧
    primary w' = primary w ∧
    listen w' = listen w ∧
    reachable cfg w'.
Proof.
  intros Hreach Hsvc Hfatal.
  pose proof (reachable_exit_made cfg w Hreach) as Hexit.
  unfold exit_made in Hexit. rewrite Hsvc in Hexit.
  assert (run cfg [Shutdown_call; Exit_from_Shutdown (length (shutdowns w))] w
          = Some {| gm_exit := gm_exit w; service := SvcReturned None;
                    listen := listen w; primary := primary w;
                    vs_started := vs_started w;
                    shutdowns := <[length (shutdowns w) := ShReturned]>
                                   (shutdowns w ++ [ShSending (gm_exit w)])%list |})
    as Hrun.
  { simpl. unfold exec at 1. rewrite Hfatal.
    unfold exec, fatal in *. simpl. rewrite Hfatal.
    rewrite lookup_app_r by done. rewrite Nat.sub_diag. simpl.
    by rewrite Hexit, Hsvc. }
  eexists. split; [exact Hrun|]. repeat split.
  destruct Hreach as [schedule Hs].
  exists (schedule ++ [Shutdown_call; Exit_from_Shutdown (length (shutdowns w))])%list.
  revert Hs Hrun. generalize Runtime_init.
  induction schedule as [|a schedule IH]; intros w0; simpl.
  - intros [= ->]. done.
  - destruct (exec cfg a w0); [|done]. apply IH.
Qed.

(** * Further properties *)

(** ** Registration and the tables *)

(** X1: registering a handler for one host changes nothing for requests
    to any other host: they are dispatched and answered as before. *)
Theorem AddHostHandler_other_hosts (gm : Proxy) (host : string)
    (handler : Handler) (req : Request.t) :
  Request.Host req ≠ host →
  dispatch (AddHostHandler host handler gm).1 req = dispatch gm req ∧
  proxyHandler (AddHostHandler host handler gm).1 req = proxyHandler gm req.
Proof using Type.
  intros Hne.
  assert (dispatch (AddHostHandler host handler gm).1 req = dispatch gm req)
    as E.
  { unfold AddHostHandler. case_decide; [done|].
    destruct (handlers gm) as [m|] eqn:Hm; [|done].
    unfold dispatch. simpl. rewrite Hm. simpl.
    by rewrite lookup_insert_ne. }
  split; [done|]. unfold proxyHandler. by rewrite E.
Qed.

Lemma AddHostHandler_instance host x gm :
  (AddHostHandler host x gm).1 =
    if decide (host = "") then gm
    else match handlers gm with
         | None => gm
         | Some m => {| config := config gm;
                        handlers := Some (<[host := x]> m);
                        proxies := proxies gm |}
         end.
Proof using Type.
  unfold AddHostHandler. case_decide; [done|]. by destruct (handlers gm).
Qed.

(** X2: registrations for two different hosts can be made in either
    order with the same resulting instance, and a second registration for
    a host leaves no trace of the first. *)
Theorem AddHostHandler_commute (gm : Proxy) (host1 host2 : string)
    (x1 x2 : Handler) :
  host1 ≠ host2 →
  (AddHostHandler host2 x2 (AddHostHandler host1 x1 gm).1).1
  = (AddHostHandler host1 x1 (AddHostHandler host2 x2 gm).1).1 ∧
  (AddHostHandler host1 x2 (AddHostHandler host1 x1 gm).1).1
  = (AddHostHandler host1 x2 gm).1.
Proof using Type.
  intros Hne. rewrite !AddHostHandler_instance.
  destruct (decide (host1 = "")) as [E1|E1];
    destruct (decide (host2 = "")) as [E2|E2];
    destruct (handlers gm) as [m|] eqn:Hm; simpl; rewrite ?Hm; try done.
  all: rewrite insert_insert_eq; split; [|done].
  - done.
  - by rewrite (insert_insert_ne m host2 host1).
Qed.

Lemma latest_route_sound routes host p :
  latest_route routes host = Some p →
  ∃ r u, r ∈ routes ∧ HostConfig.Proxy r = host ∧
         url_Parse (HostConfig.Host r) = Ok u ∧
         p = NewSingleHostReverseProxy u.
Proof using Type.
  induction routes as [|r routes IH]; simpl; [done|].
  destruct (latest_route routes host) as [q|].
  - intros [= <-]. destruct (IH eq_refl) as (r' & u & Hin & Hrest).
    exists r', u. split; [apply elem_of_cons; by right | done].
  - case_decide as Hname; [|done].
    destruct (url_Parse (HostConfig.Host r)) as [u|e] eqn:Hu; [|done].
    intros [= <-]. exists r, u. split; [apply elem_of_cons; by left | done].
Qed.

(** X3: every entry of the route table comes from the configuration: a
    host with a route is the name of some configured route whose upstream
    URL parsed, and the route forwards to that URL. *)
Theorem Setup_table_sound (cfg : Configuration) (host : string)
    (p : ReverseProxy) :
  map_index (proxies (Setup cfg).1) host = Some p →
  ∃ r u, r ∈ Proxies cfg ∧ HostConfig.Proxy r = host ∧
         url_Parse (HostConfig.Host r) = Ok u ∧
         p = NewSingleHostReverseProxy u.
Proof using Type. rewrite Setup_proxies. apply latest_route_sound. Qed.

Lemma latest_route_cons_NoDup r routes host :
  HostConfig.Proxy r ∉ HostConfig.Proxy <$> routes →
  latest_route (r :: routes) host =
    if decide (HostConfig.Proxy r = host)
    then match url_Parse (HostConfig.Host r) with
         | Ok u => Some (NewSingleHostReverseProxy u)
         | Err _ => None
         end
    else latest_route routes host.
Proof using Type.
  intros Hfresh. simpl. case_decide as Hname.
  - rewrite latest_route_absent; [done|].
    apply Forall_forall. intros r' Hin E. apply Hfresh.
    rewrite Hname, <- E. by apply list_elem_of_fmap_2.
  - by destruct (latest_route routes host).
Qed.

Lemma latest_route_Permutation routes routes' host :
  NoDup (HostConfig.Proxy <$> routes) → routes ≡ₚ routes' →
  latest_route routes host = latest_route routes' host.
Proof using Type.
  intros Hnd Hperm. induction Hperm as [|r l l' Hperm IH|r1 r2 l|l l' l'' H1 IH1 H2 IH2].
  - done.
  - rewrite fmap_cons in Hnd. apply NoDup_cons in Hnd as [Hfresh Hnd].
    rewrite !latest_route_cons_NoDup; [by rewrite IH| |done].
    by rewrite <- Hperm.
  - rewrite !fmap_cons in Hnd.
    apply NoDup_cons in Hnd as [Hfresh2 Hnd].
    apply NoDup_cons in Hnd as [Hfresh1 Hnd].
    apply not_elem_of_cons in Hfresh2 as [Hne Hfresh2].
    simpl. destruct (latest_route l host); [done|].
    repeat case_decide; try done; try congruence.
    + by destruct (url_Parse (HostConfig.Host r1)).
    + by destruct (url_Parse (HostConfig.Host r2)).
  - rewrite IH1 by done. apply IH2. by rewrite <- H1.
Qed.

(** X4: when the configured host names are pairwise different, the
    order of the routes in the configuration does not matter: any
    rearrangement of the list gives the same route table. *)
Theorem Setup_order_irrelevant (cfg : Configuration)
    (routes routes' : list HostConfig.t) :
  NoDup (HostConfig.Proxy <$> routes) → routes ≡ₚ routes' →
  proxies (Setup (with_Proxies cfg routes)).1
  = proxies (Setup (with_Proxies cfg routes')).1.
Proof using Type.
  intros Hnd Hperm. simpl. f_equal. apply map_eq. intros host.
  pose proof (Setup_proxies (with_Proxies cfg routes) host) as E1.
  pose proof (Setup_proxies (with_Proxies cfg routes') host) as E2.
  simpl in E1, E2. rewrite E1, E2. by apply latest_route_Permutation.
Qed.

(** X5: what a fresh instance does with a request follows from the
    configuration alone: the request goes to the route of the last entry
    for its host whose URL parses; without such an entry it goes to the
    file server when the static root is set and gets a 404 otherwise.  No
    request is handled locally before a handler is registered. *)
Theorem Setup_dispatch (cfg : Configuration) (req : Request.t) :
  dispatch (Setup cfg).1 req =
    match latest_route (Proxies cfg) (Request.Host req) with
    | Some p => ToProxy p
    | None =>
        if decide (StaticDir cfg ≠ "")
        then ToServeFile (path_Join [StaticDir cfg; Request.Host req])
        else ToNotFound
    end.
Proof using Type.
  unfold dispatch. rewrite Setup_proxies. simpl. by rewrite lookup_empty.
Qed.

(** ** The name the static fallback serves *)

Lemma append_assoc_string (a b c : string) : (a +:+ b) +:+ c = a +:+ b +:+ c.
Proof using Type.
  induction a as [|x a IH]; [done|].
  change (String x ((a +:+ b) +:+ c) = String x (a +:+ b +:+ c)).
  by rewrite IH.
Qed.

Lemma split_on_no_slash s :
  has_slash s = false → split_on isSlash s = [s].
Proof using Type.
  induction s as [|a s IH]; simpl; [done|].
  intros [Ha Hs]%orb_false_elim. rewrite Ha. by rewrite (IH Hs).
Qed.

Lemma split_on_slash_app s t :
  has_slash s = false →
  split_on isSlash (s +:+ String "/" t) = s :: split_on isSlash t.
Proof using Type.
  induction s as [|a s IH]; simpl; [done|].
  intros [Ha Hs]%orb_false_elim. rewrite Ha. by rewrite (IH Hs).
Qed.

(** Splitting at the slashes undoes joining with slashes. *)
Lemma split_on_join_slash l :
  l ≠ [] → Forall (λ e, has_slash e = false) l →
  split_on isSlash (join_slash l) = l.
Proof using Type.
  intros Hne Hall. induction Hall as [|e l He Hall IH]; [done|].
  destruct l as [|e' l]; simpl.
  - by apply split_on_no_slash.
  - change ("/" +:+ ?x) with (String "/" x).
    rewrite split_on_slash_app by done. f_equal. by apply IH.
Qed.

Lemma join_slash_snoc l e :
  l ≠ [] → join_slash (l ++ [e]) = join_slash l +:+ "/" +:+ e.
Proof using Type.
  intros Hne. induction l as [|x l IH]; [done|].
  destruct l as [|y l]; [done|].
  change (join_slash ((x :: y :: l) ++ [e]))
    with (x +:+ "/" +:+ join_slash ((y :: l) ++ [e])).
  rewrite IH by done.
  change (join_slash (x :: y :: l)) with (x +:+ "/" +:+ join_slash (y :: l)).
  by rewrite !append_assoc_string.
Qed.

Lemma Clean_elems_app rooted out l rest :
  Forall proper_elem l →
  Clean_elems rooted out (l ++ rest) = Clean_elems rooted (rev l ++ out) rest.
Proof using Type.
  intros Hall. revert out.
  induction Hall as [|e l (_ & He1 & He2 & He3) _ IH]; intros out; [done|].
  simpl. rewrite !decide_False by done. rewrite IH.
  by rewrite <- app_assoc.
Qed.

Lemma Clean_elems_proper rooted out l :
  Forall proper_elem l → Clean_elems rooted out l = (rev out ++ l)%list.
Proof using Type.
  intros Hall. pose proof (Clean_elems_app rooted out l [] Hall) as E.
  rewrite app_nil_r in E. rewrite E. simpl.
  by rewrite rev_app_distr, rev_involutive.
Qed.

Lemma join_slash_relative l :
  l ≠ [] → Forall (λ e, has_slash e = false ∧ e ≠ "") l →
  ∃ a rest, join_slash l = String a rest ∧ Ascii.eqb a "/" = false.
Proof using Type.
  intros Hne Hall. destruct Hall as [|e l [Hs He] _]; [done|].
  destruct e as [|a e]; [done|]. simpl in Hs.
  apply orb_false_elim in Hs as [Ha _].
  exists a. destruct l; simpl; eauto.
Qed.

(** A relative path of proper elements is clean already. *)
Lemma path_Clean_join_slash l :
  l ≠ [] → Forall proper_elem l → path_Clean (join_slash l) = join_slash l.
Proof using Type.
  intros Hne Hall.
  destruct (join_slash_relative l Hne) as (a & rest & E & Ha).
  { eapply Forall_impl; [done|]. by intros e (? & ? & _). }
  unfold path_Clean. rewrite E, Ha. rewrite <- E.
  rewrite split_on_join_slash; [|done|].
  - rewrite Clean_elems_proper by done. simpl.
    rewrite decide_False; [done|]. by rewrite E.
  - eapply Forall_impl; [done|]. by intros e (? & _).
Qed.

(** X6: for a static root that is a relative path of proper elements
    and a Host header that is a proper element, the static fallback hands
    the file server the root, a slash and the Host header. *)
Theorem static_name_of_plain_host (gm : Proxy) (req : Request.t)
    (root : list string) :
  map_index (handlers gm) (Request.Host req) = None →
  map_index (proxies gm) (Request.Host req) = None →
  StaticDir (config gm) = join_slash root →
  root ≠ [] → Forall proper_elem root →
  proper_elem (Request.Host req) →
  dispatch gm req =
    ToServeFile (StaticDir (config gm) +:+ "/" +:+ Request.Host req).
Proof using Type.
  intros Hh Hp Hroot Hne Hall Hhost.
  destruct (join_slash_relative root Hne) as (a & rest & E & _).
  { eapply Forall_impl; [done|]. by intros e (? & ? & _). }
  unfold dispatch. rewrite Hh, Hp, Hroot.
  rewrite decide_True by (by rewrite E). f_equal.
  unfold path_Join. rewrite decide_False by (by rewrite E).
  change (join_slash [join_slash root; Request.Host req])
    with (join_slash root +:+ "/" +:+ Request.Host req).
  rewrite <- join_slash_snoc by done.
  apply path_Clean_join_slash; [by destruct root|].
  apply Forall_app. split; [done|]. by constructor.
Qed.

(** X7: a request whose Host header is [..] is served from the parent
    of the static root: with a root of several proper elements the name
    handed to the file server is the root without its last element, and
    with a root of one element it is the working directory. *)
Theorem static_name_of_dotdot_host (gm : Proxy) (req : Request.t)
    (parent : list string) (last : string) :
  map_index (handlers gm) (Request.Host req) = None →
  map_index (proxies gm) (Request.Host req) = None →
  StaticDir (config gm) = join_slash (parent ++ [last]) →
  Forall proper_elem parent → proper_elem last →
  Request.Host req = ".." →
  dispatch gm req =
    ToServeFile (if decide (parent = []) then "." else join_slash parent).
Proof using Type.
  intros Hh Hp Hroot Hall Hlast Hhost.
  assert (Forall proper_elem (parent ++ [last])) as Hall'
    by (apply Forall_app; split; [done | by constructor]).
  assert ((parent ++ [last])%list ≠ []) as Hne by (by destruct parent).
  destruct (join_slash_relative _ Hne) as (a & rest & E & Ha).
  { eapply Forall_impl; [done|]. by intros e (? & ? & _). }
  unfold dispatch. rewrite Hh, Hp, Hroot, Hhost.
  rewrite decide_True by (by rewrite E). f_equal.
  unfold path_Join. rewrite decide_False by (by rewrite E).
  change (join_slash [join_slash (parent ++ [last]); ".."])
    with (join_slash (parent ++ [last]) +:+ "/" +:+ "..").
  rewrite <- join_slash_snoc by done.
  destruct (join_slash_relative ((parent ++ [last]) ++ [".."])%list)
    as (a' & rest' & E' & Ha').
  { by destruct parent. }
  { apply Forall_app. split; [|by repeat constructor].
    eapply Forall_impl; [done|]. by intros e (? & ? & _). }
  unfold path_Clean. rewrite E', Ha'. rewrite <- E'.
  rewrite split_on_join_slash.
  - rewrite Clean_elems_app by done. rewrite app_nil_r, rev_app_distr.
    simpl. destruct Hlast as (_ & _ & _ & Hdd).
    rewrite (decide_False _ _ Hdd). rewrite rev_involutive.
    destruct parent as [|e parent]; [done|].
    rewrite (decide_False (P := e :: parent = [])) by done.
    destruct (join_slash_relative (e :: parent)) as (b & rest'' & E'' & _);
      [done| |].
    { eapply Forall_impl; [exact Hall|]. by intros ? (? & ? & _). }
    rewrite decide_False; [done|]. by rewrite E''.
  - by destruct parent.
  - apply Forall_app. split; [|by repeat constructor].
    eapply Forall_impl; [done|]. by intros e (? & _).
Qed.

(** ** Addresses and listeners *)

(** X8: whatever it is given and whatever the environment holds,
    [ParseHost] returns an address that is not empty and does not start
    with a colon, and normalising such an address again changes nothing. *)
Theorem ParseHost_listenable (addr : string) :
  ParseHost Getenv addr ≠ "" ∧
  strings_IndexByte (ParseHost Getenv addr) ":"%char ≠ 0 ∧
  ParseHost Getenv (ParseHost Getenv addr) = ParseHost Getenv addr.
Proof using Type.
  destruct (ParseHost_shape addr) as [Hne Hidx].
  split; [done|]. split; [done|]. apply ParseHost_idempotent.
Qed.

(** X9: [Listen] fails to get its listener only when the outside world
    fails: the error is the one of binding the socket, the one of opening
    the certificate cache file, or the formatted error of a key pair that
    did not load. *)
Theorem Listen_listener_error_origin (cfg : Configuration) (err : error) :
  Listen_listener cfg = Err err →
  (∃ addr, bind "tcp4" addr = Some err) ∨
  Manager_CacheFile "./letsencrypt.cache" = Some err ∨
  (∃ e, tls_LoadX509KeyPair (SSL_Default_CertFile cfg)
          (SSL_Default_KeyFile cfg) = Err e ∧
        err = errParseTLS (SSL_Default_CertFile cfg)
                (SSL_Default_KeyFile cfg) e).
Proof using Type.
  unfold Listen_listener. case_decide as Hfiles.
  - unfold TLS. rewrite decide_False by (by intros [?|?]; destruct Hfiles).
    destruct (tls_LoadX509KeyPair _ _) as [cert|e] eqn:Hload.
    + unfold CERT, TCP4, net_Listen.
      destruct (bind _ _) eqn:Hb; [|done]. intros [= <-]. left. by eexists.
    + intros [= <-]. right. right. by exists e.
  - destruct (SSL_DisableLetsEncrypt cfg); simpl.
    + unfold TCP4, net_Listen.
      destruct (bind _ _) eqn:Hb; [|done]. intros [= <-]. left. by eexists.
    + destruct (Prod cfg); unfold LETSENCRYPTPROD, LETSENCRYPT, TCP4,
        net_Listen; destruct (bind _ _) eqn:Hb.
      * intros [= <-]. left. by eexists.
      * done.
      * intros [= <-]. left. by eexists.
      * destruct (Manager_CacheFile _) eqn:Hc; [|done].
        intros [= <-]. right. by left.
Qed.

(** ** The redirect target *)




(** X11: when the bind address has no colon, or ends in [:443] after a
    host part without a colon, the redirect goes to [https://], the Host
    header up to its first colon, and the request URI, with nothing in
    between: the standard port is left out of the target. *)
Theorem redirect_to_standard_port (cfg : Configuration) (r : Request.t) :
  strings_Index_colon (Addr cfg) = -1 ∨
  (∃ h, strings_Index_colon h = -1 ∧ Addr cfg = h +:+ ":443") →
  StatusCode (redirectHandler cfg r) = StatusMovedPermanently ∧
  Location (redirectHandler cfg r) =
    "https://" +:+ realHost (Request.Host r) +:+ Request.RequestURI r.
Proof using Type.
  intros Haddr. split; [done|].
  change (Location (redirectHandler cfg r))
    with ("https://" +:+ realHost (Request.Host r) +:+ realSSLPort cfg
                     +:+ Request.RequestURI r).
  assert (realSSLPort cfg = "") as ->; [|done].
  unfold realSSLPort. destruct Haddr as [Hi|(h & Hh & ->)].
  - rewrite Hi. by rewrite decide_False by (by intros [? _]).
  - unfold strings_Index_colon in *.
    change (":443") with (String ":" "443").
    rewrite strings_IndexByte_app_absent by done.
    replace (Z.to_nat (Z.of_nat (String.length h) + 1))
      with (S (String.length h)) by lia.
    assert (slice_from (S (String.length h)) (h +:+ String ":" "443") = "443")
      as E.
    { clear. induction h as [|a h IH]; [done | exact IH]. }
    rewrite E. by rewrite decide_False by (by intros [_ ?]).
Qed.

(** ** The life of a run *)

Lemma exec_coherent cfg a w w' :
  socket_follows_Listen cfg w ∧ result_has_origin w →
  exec cfg a w = Some w' →
  socket_follows_Listen cfg w' ∧ result_has_origin w'.
Proof using Type.
  unfold socket_follows_Listen, result_has_origin, exec.
  intros [Hsock Horigin]. destruct (fatal w); [done|].
  destruct a.
  - destruct (service w); try done. by intros [= <-].
  - destruct (service w); try done. intros [= <-]. simpl.
    destruct Horigin as [_ Hl]. by rewrite Hl in Hsock.
  - destruct (listen w) eqn:Hl; try done.
    destruct (Listen_listener cfg) as [ln|e] eqn:HL; intros [= <-]; simpl.
    + split; [by exists ln|].
      destruct (service w) as [| | |[|]]; try done; by destruct Horigin.
    + split; [done|].
      destruct (service w) as [| | |[|]]; try done; by destruct Horigin.
  - destruct (listen w) eqn:Hl; try done. intros [= <-]. simpl.
    split; [by split; [|eexists]|].
    destruct (service w) as [| | |[|]]; try done; by destruct Horigin.
  - destruct (listen w) as [| | |err| |] eqn:Hl; try done.
    destruct (service w); try done. intros [= <-]. simpl.
    by destruct Hsock as [Hclosed [e ->]].
  - intros [= <-]. simpl. split; [done|].
    destruct (service w) as [| | |[|]]; try done.
    apply elem_of_app. by left.
  - destruct (shutdowns w !! i) as [[[]|]|] eqn:Hi; try done.
    destruct (service w); try done. intros [= <-]. simpl.
    split; [done|]. apply list_elem_of_lookup. exists i.
    apply list_lookup_insert_eq. by eapply lookup_lt_Some.
Qed.

Lemma run_coherent cfg schedule w w' :
  socket_follows_Listen cfg w ∧ result_has_origin w →
  run cfg schedule w = Some w' →
  socket_follows_Listen cfg w' ∧ result_has_origin w'.
Proof using Type.
  revert w. induction schedule as [|a schedule IH]; intros w Hinv; simpl.
  - by intros [= <-].
  - destruct (exec cfg a w) as [w1|] eqn:E; [|done].
    apply IH. by eapply exec_coherent.
Qed.

Lemma reachable_coherent cfg w :
  reachable cfg w → socket_follows_Listen cfg w ∧ result_has_origin w.
Proof using Type. intros [schedule Hrun]. by eapply run_coherent; [|done]. Qed.

(** Settles the two equivalences of the next theorem once the state of
    [Listen] and of the socket are known. *)
Ltac socket_cases :=
  split; [intros ?|]; split; intros Hx; try done;
  try (destruct Hx; done || congruence);
  try (destruct Hx as [?|Hy]; [|destruct Hy]; done);
  try (injection Hx as ->; done).

(** X12: in every state a run can reach, the primary socket is open
    exactly while [Listen] is inside [Serve], and it is the listener that
    [Listen] chose; it is closed only once [Serve] has returned.  No call
    of [Shutdown] and no return of [Service] has a part in it. *)
Theorem socket_open_while_serving (cfg : Configuration) (w : Runtime) :
  reachable cfg w →
  (∀ ln, primary w = SockOpen ln ↔
         listen w = LisServing ∧ Listen_listener cfg = Ok ln) ∧
  (primary w = SockClosed ↔
   listen w = LisDone ∨ ∃ err, listen w = LisSending (Some err)).
Proof using Type.
  intros [Hsock _]%reachable_coherent. unfold socket_follows_Listen in Hsock.
  destruct (listen w) as [| | |err| |msg] eqn:Hl.
  - rewrite Hsock. socket_cases.
  - rewrite Hsock. socket_cases.
  - destruct Hsock as (ln' & HL & ->). rewrite HL. socket_cases.
  - destruct Hsock as [-> [e ->]]. socket_cases. right. by exists e.
  - rewrite Hsock. socket_cases. by left.
  - rewrite Hsock. socket_cases.
Qed.

(** X13: in every state a run can reach, a result of [Service] tells
    where it came from: no error means that a call of [Shutdown] was
    received, and an error means that [Listen] has returned and its
    socket is closed. *)
Theorem Service_result_origin (cfg : Configuration) (w : Runtime)
    (err : option error) :
  reachable cfg w →
  service w = SvcReturned err →
  match err with
  | None => ShReturned ∈ shutdowns w
  | Some _ => listen w = LisDone ∧ primary w = SockClosed
  end.
Proof using Type.
  intros [Hsock Horigin]%reachable_coherent Hsvc.
  unfold socket_follows_Listen, result_has_origin in *.
  rewrite Hsvc in Horigin. destruct err as [e|]; [|done].
  rewrite Horigin in Hsock. done.
Qed.

Lemma exec_returned_stays cfg a w w' err :
  service w = SvcReturned err → exec cfg a w = Some w' →
  service w' = SvcReturned err.
Proof using Type.
  unfold exec. intros Hsvc. destruct (fatal w); [done|].
  destruct a; rewrite ?Hsvc; try done.
  - destruct (listen w); try done.
    destruct (Listen_listener cfg); intros [= <-]; done.
  - destruct (listen w); intros [= <-]; done.
  - by destruct (listen w).
  - intros [= <-]; done.
  - by destruct (shutdowns w !! i) as [[[]|]|].
Qed.

(** X14: [Service] returns once.  After it has returned, its result
    stays what it is whatever runs next, and no send on the exit channel
    is received any more: a later call of [Shutdown] stays blocked, and
    so does [Listen] when it comes to report its error. *)
Theorem Service_return_is_final (cfg : Configuration) (w : Runtime)
    (err : option error) :
  service w = SvcReturned err →
  (∀ schedule w', run cfg schedule w = Some w' →
                  service w' = SvcReturned err) ∧
  exec cfg Exit_from_Listen w = None ∧
  (∀ i, exec cfg (Exit_from_Shutdown i) w = None).
Proof using Type.
  intros Hsvc. split; [|split].
  - intros schedule. revert w Hsvc.
    induction schedule as [|a schedule IH]; intros w Hsvc w'; simpl.
    + by intros [= <-].
    + destruct (exec cfg a w) as [w1|] eqn:E; [|done].
      apply IH. by eapply exec_returned_stays.
  - unfold exec. destruct (fatal w); [done|]. rewrite Hsvc.
    by destruct (listen w).
  - intros i. unfold exec. destruct (fatal w); [done|]. rewrite Hsvc.
    by destruct (shutdowns w !! i) as [[[]|]|].
Qed.

Lemma exec_nil_send_stays cfg a w w' i :
  shutdowns w !! i = Some (ShSending nilChan) →
  exec cfg a w = Some w' →
  shutdowns w' !! i = Some (ShSending nilChan).
Proof using Type.
  unfold exec. intros Hi. destruct (fatal w); [done|]. destruct a.
  - destruct (service w); intros [= <-]; done.
  - destruct (service w); intros [= <-]; done.
  - destruct (listen w); try done.
    destruct (Listen_listener cfg); intros [= <-]; done.
  - destruct (listen w); intros [= <-]; done.
  - destruct (listen w); try done.
    destruct (service w); intros [= <-]; done.
  - intros [= <-]. simpl. rewrite lookup_app_l; [done|].
    by eapply lookup_lt_Some.
  - destruct (shutdowns w !! i0) as [[[]|]|] eqn:Hj; try done.
    destruct (service w); try done. intros [= <-]. simpl.
    rewrite list_lookup_insert_ne; [done|]. intros ->. congruence.
Qed.

(** X15: a call of [Shutdown] that comes before [Service] has made the
    exit channel sends on the [nil] channel and is never received: in
    every continuation of the run that call is still blocked in its send. *)
Theorem Shutdown_before_channel_never_received (cfg : Configuration)
    (w w' : Runtime) (schedule : list Action) :
  reachable cfg w →
  service w = SvcNotCalled ∨ service w = SvcEntered →
  run cfg (Shutdown_call :: schedule) w = Some w' →
  shutdowns w' !! length (shutdowns w) = Some (ShSending nilChan).
Proof using Type.
  intros [_ Horigin]%reachable_coherent Hsvc.
  assert (gm_exit w = nilChan) as Hnil.
  { unfold result_has_origin in Horigin.
    by destruct Hsvc as [E|E]; rewrite E in Horigin; destruct Horigin. }
  simpl. destruct (exec cfg Shutdown_call w) as [w1|] eqn:E1; [|done].
  assert (shutdowns w1 !! length (shutdowns w) = Some (ShSending nilChan))
    as H1.
  { unfold exec in E1. destruct (fatal w); [done|]. injection E1 as <-.
    simpl. rewrite lookup_app_r by done. rewrite Nat.sub_diag. simpl.
    by rewrite Hnil. }
  clear E1. revert w1 H1.
  induction schedule as [|a schedule IH]; intros w1 H1; simpl.
  - by intros [= <-].
  - destruct (exec cfg a w1) as [w2|] eqn:E; [|done].
    apply IH. by eapply exec_nil_send_stays.
Qed.

(** ** The logger *)

(** X16: whatever name it is given, [LogLevel] sets a level between
    [FATAL] and [TRACE], never [OFF]; it reports failure only when it
    has set [INFO]; and a fatal message is printed at every level it can
    set. *)
Theorem LogLevel_never_off (ToUpper : string → string) (ll ns msg : string) :
  (golog.FATAL ≤ (golog.LogLevel ToUpper ll).1 ≤ golog.TRACE)%Z ∧
  ((golog.LogLevel ToUpper ll).2 = true ∨
   (golog.LogLevel ToUpper ll).1 = golog.INFO) ∧
  is_Some (GoLog_emit (golog.LogLevel ToUpper ll).1 ns (FATAL, msg)).
Proof using Type.
  unfold golog.LogLevel.
  repeat case_decide; simpl;
    (split; [done|]; split; [by (left + right)|]);
    by eexists.
Qed.

Lemma LogLevel_below_WARN (ToUpper : string → string) (ll : string) :
  ((golog.LogLevel ToUpper ll).1 >=? golog.WARN)%Z = false ↔
  ToUpper ll = "FATAL" ∨ ToUpper ll = "ERROR".
Proof using Type.
  unfold golog.LogLevel.
  repeat case_decide; simpl; split; intros Hx; try done;
    try (by left); try (by right); destruct Hx; congruence.
Qed.

Lemma warnings_printed (L : Z) (ns : string) (routes : list HostConfig.t) :
  omap (GoLog_emit L ns)
    (flat_map (λ r, match url_Parse (HostConfig.Host r) with
                    | Ok _ => []
                    | Err err => [(WARN, "Could not parse Host: " +:+ err)]
                    end) routes) = [] ↔
  (L >=? golog.WARN)%Z = false ∨ Forall (λ r, parses r = true) routes.
Proof using Type.
  induction routes as [|r routes IH].
  - split; [by right | done].
  - rewrite Forall_cons. unfold parses at 1.
    cbn [flat_map]. rewrite omap_app.
    destruct (url_Parse (HostConfig.Host r)) as [u|e].
    + cbn [omap list_omap app]. rewrite IH.
      split; (intros [?|?]; [by left | right]); [done | by destruct H].
    + unfold GoLog_emit at 1, golog.PrintColour, golog.print.
      cbn [omap list_omap fst snd].
      destruct (L >=? golog.WARN)%Z.
      * cbn [app]. split; [done|]. intros [|[? _]]; done.
      * cbn [app]. rewrite IH. split; intros _; by left.
Qed.

(** X17: the warnings of [Setup] reach the log unless the level was set
    from a name that upper-cases to [FATAL] or [ERROR]: for any other
    name, recognised or not, nothing is printed exactly when every route
    of the configuration has a URL that parses. *)
Theorem Setup_warnings_lost (ToUpper : string → string) (ll ns : string)
    (cfg : Configuration) :
  omap (GoLog_emit (golog.LogLevel ToUpper ll).1 ns) (Setup_log cfg) = [] ↔
  ToUpper ll = "FATAL" ∨ ToUpper ll = "ERROR" ∨
  Forall (λ r, parses r = true) (Proxies cfg).
Proof using Type.
  unfold Setup_log, Setup_routes. rewrite Setup_log_fold. simpl.
  rewrite warnings_printed, LogLevel_below_WARN.
  split; [intros [[?|?]|?] | intros [?|[?|?]]]; eauto.
Qed.

End Gomost.

(** * The properties at concrete inputs *)

(** C1 at work: after [Setup] with routes for [a.com] and [b.com] and a
    handler registered for [a.com], a request for [a.com] gets the
    handler, one for [b.com] its upstream, one for [nosuch.org] the file
    server; with the static root empty the last one gets a 404. *)
Lemma proxyHandler_priority_witness :
  proxyHandler sample_forward sample_fs
    (AddHostHandler "a.com" (sample_handler "local")
       (Setup sample_url_Parse (sample_config "www")).1).1
    (sample_request "a.com" "/")
  = sample_handler "local" (sample_request "a.com" "/") ∧
  proxyHandler sample_forward sample_fs
    (AddHostHandler "a.com" (sample_handler "local")
       (Setup sample_url_Parse (sample_config "www")).1).1
    (sample_request "b.com" "/")
  = sample_forward "http://two" (sample_request "b.com" "/") ∧
  proxyHandler sample_forward sample_fs
    (AddHostHandler "a.com" (sample_handler "local")
       (Setup sample_url_Parse (sample_config "www")).1).1
    (sample_request "nosuch.org" "/")
  = http_ServeFile sample_fs (sample_request "nosuch.org" "/")
      "www/nosuch.org" ∧
  StatusCode
    (proxyHandler sample_forward sample_fs
       (AddHostHandler "a.com" (sample_handler "local")
          (Setup sample_url_Parse (sample_config "")).1).1
       (sample_request "nosuch.org" "/"))
  = 404.
Proof.
  split; [|split; [|split]].
  - destruct (proxyHandler_priority sample_forward sample_fs
                (AddHostHandler "a.com" (sample_handler "local")
                   (Setup sample_url_Parse (sample_config "www")).1).1
                (sample_request "a.com" "/")) as (H & _).
    apply (H (sample_handler "local")). reflexivity.
  - destruct (proxyHandler_priority sample_forward sample_fs
                (AddHostHandler "a.com" (sample_handler "local")
                   (Setup sample_url_Parse (sample_config "www")).1).1
                (sample_request "b.com" "/")) as (_ & H & _).
    apply (H (NewSingleHostReverseProxy "http://two")); reflexivity.
  - destruct (proxyHandler_priority sample_forward sample_fs
                (AddHostHandler "a.com" (sample_handler "local")
                   (Setup sample_url_Parse (sample_config "www")).1).1
                (sample_request "nosuch.org" "/")) as (_ & _ & H & _).
    apply H; [reflexivity | reflexivity | discriminate].
  - destruct (proxyHandler_priority sample_forward sample_fs
                (AddHostHandler "a.com" (sample_handler "local")
                   (Setup sample_url_Parse (sample_config "")).1).1
                (sample_request "nosuch.org" "/")) as (_ & _ & _ & H).
    apply H; reflexivity.
Defined.

(** C3 (amended) at work: with the static root [www] and no site
    directory for [nosuch.org], the request is answered by the file server
    for [www/nosuch.org], with a 404. *)
Lemma static_fallback_serves_host_entry_witness :
  proxyHandler sample_forward sample_fs
    (Setup sample_url_Parse (sample_config "www")).1
    (sample_request "nosuch.org" "/page.html")
  = http_ServeFile sample_fs (sample_request "nosuch.org" "/page.html")
      "www/nosuch.org" ∧
  proxyHandler sample_forward sample_fs
    (Setup sample_url_Parse (sample_config "www")).1
    (sample_request "nosuch.org" "/page.html")
  = http_Error "404 page not found" 404.
Proof.
  destruct (static_fallback_serves_host_entry sample_forward sample_fs
              (Setup sample_url_Parse (sample_config "www")).1
              (sample_request "nosuch.org" "/page.html"))
    as (Hserve & _ & Hmissing);
    [reflexivity | reflexivity | discriminate |].
  split; [exact Hserve | apply Hmissing; reflexivity].
Defined.

(** C3 as stated fails.  The site directory [www/a.com] holds
    [x.html]; a request for [/x.html] with Host [a.com], no handler and no
    route is handed to the file server under the name [www/a.com], not
    [www/a.com/x.html], and the answer is a redirect to [x.html/], not the
    file.  A request for [/missing/], which names nothing on the disk, is
    answered 200 with the index page of the directory, not 404. *)
Lemma static_fallback_ignores_request_path :
  dispatch (Setup sample_url_Parse (with_Proxies (sample_config "www") [])).1
    (sample_request "a.com" "/x.html")
  = ToServeFile "www/a.com" ∧
  path_Join ["www"; "a.com"; "/x.html"] = "www/a.com/x.html" ∧
  sample_fs "www/a.com/x.html" = Some RegularFile ∧
  proxyHandler sample_forward sample_fs
    (Setup sample_url_Parse (with_Proxies (sample_config "www") [])).1
    (sample_request "a.com" "/x.html")
  = {| StatusCode := 301; Location := "x.html/"; ResponseBody := NoBody |} ∧
  sample_fs (path_Join ["www"; "a.com"; "/missing/"]) = None ∧
  proxyHandler sample_forward sample_fs
    (Setup sample_url_Parse (with_Proxies (sample_config "www") [])).1
    (sample_request "a.com" "/missing/")
  = {| StatusCode := 200; Location := "";
       ResponseBody := FileContents "www/a.com/index.html" |}.
Proof. repeat split; reflexivity. Qed.

(** C7 at work: on the zero instance a registration is refused as not
    initialised; after [Setup] the empty host is refused, a registration
    for [a.com] is stored, and of two registrations the second answers. *)
Lemma AddHostHandler_spec_witness :
  AddHostHandler (URL:=string) "a.com" (sample_handler "first") Proxy_zero
  = (Proxy_zero, Some "Setup() must be called") ∧
  AddHostHandler "" (sample_handler "first")
    (Setup sample_url_Parse (sample_config "www")).1
  = ((Setup sample_url_Parse (sample_config "www")).1,
     Some "The host cannot be empty") ∧
  handlers
    (AddHostHandler "a.com" (sample_handler "first")
       (Setup sample_url_Parse (sample_config "www")).1).1
  = Some (<["a.com" := sample_handler "first"]> ∅) ∧
  proxyHandler sample_forward sample_fs
    (AddHostHandler "a.com" (sample_handler "second")
       (AddHostHandler "a.com" (sample_handler "first")
          (Setup sample_url_Parse (sample_config "www")).1).1).1
    (sample_request "a.com" "/")
  = sample_handler "second" (sample_request "a.com" "/").
Proof.
  split; [|split; [|split]].
  - destruct (AddHostHandler_spec sample_url_Parse sample_forward sample_fs
                Proxy_zero "a.com" (sample_handler "first")
                (sample_handler "second")) as (_ & H & _).
    apply H; [discriminate | reflexivity].
  - destruct (AddHostHandler_spec sample_url_Parse sample_forward sample_fs
                (Setup sample_url_Parse (sample_config "www")).1 "a.com"
                (sample_handler "first") (sample_handler "second"))
      as (H & _).
    exact H.
  - destruct (AddHostHandler_spec sample_url_Parse sample_forward sample_fs
                (Setup sample_url_Parse (sample_config "www")).1 "a.com"
                (sample_handler "first") (sample_handler "second"))
      as (_ & _ & H & _).
    destruct (H ltac:(discriminate) ∅ eq_refl) as (_ & Hm & _). exact Hm.
  - destruct (AddHostHandler_spec sample_url_Parse sample_forward sample_fs
                (Setup sample_url_Parse (sample_config "www")).1 "a.com"
                (sample_handler "first") (sample_handler "second"))
      as (_ & _ & _ & H & _).
    apply H; [discriminate | by eexists | reflexivity].
Defined.

(** C8 at work: of three routes the middle one has a URL with no
    scheme; [Setup] returns no error, the table holds the two others and
    nothing for the host of the middle one, and the log has the one
    warning. *)
Lemma Setup_skips_unparsable_routes_witness :
  (Setup sample_url_Parse
     (with_Proxies (sample_config "www")
        [HostConfig.Build "a.com" "http://one";
         HostConfig.Build "bad.com" ":8091";
         HostConfig.Build "c.com" "http://three"])).2 = None ∧
  is_Some
    (map_index
       (proxies
          (Setup sample_url_Parse
             (with_Proxies (sample_config "www")
                [HostConfig.Build "a.com" "http://one";
                 HostConfig.Build "bad.com" ":8091";
                 HostConfig.Build "c.com" "http://three"])).1)
       "c.com") ∧
  map_index
    (proxies
       (Setup sample_url_Parse
          (with_Proxies (sample_config "www")
             [HostConfig.Build "a.com" "http://one";
              HostConfig.Build "bad.com" ":8091";
              HostConfig.Build "c.com" "http://three"])).1)
    "bad.com" = None ∧
  Setup_log sample_url_Parse
    (with_Proxies (sample_config "www")
       [HostConfig.Build "a.com" "http://one";
        HostConfig.Build "bad.com" ":8091";
        HostConfig.Build "c.com" "http://three"])
  = [(WARN, "Could not parse Host: parse :8091: missing protocol scheme")].
Proof.
  destruct (Setup_skips_unparsable_routes sample_url_Parse
              (with_Proxies (sample_config "www")
                 [HostConfig.Build "a.com" "http://one";
                  HostConfig.Build "bad.com" ":8091";
                  HostConfig.Build "c.com" "http://three"]))
    as (Herr & _ & Hin & Hout & Hlog).
  split; [exact Herr|]. split; [|split].
  - apply (Hin (HostConfig.Build "c.com" "http://three") "http://three").
    + simpl. do 2 right. left.
    + reflexivity.
  - apply Hout. simpl. repeat constructor; intros [=]; reflexivity.
  - rewrite Hlog. reflexivity.
Defined.

(** C9 (amended) at work: two routes for [a.com], both with a URL that
    parses; the table sends [a.com] to the upstream of the later one. *)
Lemma Setup_duplicate_host_witness :
  map_index
    (proxies
       (Setup sample_url_Parse
          (with_Proxies (sample_config "www")
             [HostConfig.Build "a.com" "http://one";
              HostConfig.Build "b.com" "http://two";
              HostConfig.Build "a.com" "http://three"])).1)
    "a.com"
  = Some (NewSingleHostReverseProxy "http://three").
Proof.
  apply (Setup_duplicate_host sample_url_Parse
           (with_Proxies (sample_config "www")
              [HostConfig.Build "a.com" "http://one";
               HostConfig.Build "b.com" "http://two";
               HostConfig.Build "a.com" "http://three"])
           [] [HostConfig.Build "b.com" "http://two"] []
           (HostConfig.Build "a.com" "http://one")
           (HostConfig.Build "a.com" "http://three") "a.com").
  - reflexivity.
  - reflexivity.
  - reflexivity.
  - simpl. repeat constructor. discriminate.
Defined.

(** C9 as stated fails: of two routes for [a.com] the later one has a
    URL with no scheme, which the parser refuses; the route in the table
    is the one of the earlier entry. *)
Lemma Setup_later_route_unparsable :
  sample_url_Parse ":8091" = Err "parse :8091: missing protocol scheme" ∧
  map_index
    (proxies
       (Setup sample_url_Parse
          (with_Proxies (sample_config "www")
             [HostConfig.Build "a.com" "http://one";
              HostConfig.Build "a.com" ":8091"])).1)
    "a.com"
  = Some (NewSingleHostReverseProxy "http://one").
Proof. split; reflexivity. Qed.

(** C10 at work: with a handler and a route for [a.com], a request
    whose Host header is [a.com:8443] is dispatched as if neither were
    there, to the file server; the redirect server reads the header as
    [a.com]. *)
Lemma dispatch_key_keeps_port_witness :
  dispatch
    (AddHostHandler "a.com" (sample_handler "local")
       (Setup sample_url_Parse
          (with_Proxies (sample_config "www")
             [HostConfig.Build "a.com" "http://one"])).1).1
    (sample_request "a.com:8443" "/")
  = ToServeFile "www/a.com:8443" ∧
  realHost "a.com:8443" = "a.com".
Proof.
  destruct (dispatch_key_keeps_port sample_url_Parse
              (Setup sample_url_Parse (sample_config "www")).1
              "a.com" "8443" (sample_request "a.com:8443" "/")
              eq_refl eq_refl)
    as (_ & _ & Hboth & Hredirect).
  split; [|exact Hredirect].
  exact (Hboth (sample_config "www") (sample_handler "local")
           (HostConfig.Build "a.com" "http://one") eq_refl).
Defined.

(** C4 (amended) at work: with [HOSTNAME] and [PORT] set the empty
    address becomes [example.com:9090]; [localhost] is returned as it is
    whatever the environment holds. *)
Lemma ParseHost_spec_witness :
  ParseHost (env_of [("HOSTNAME", "example.com"); ("PORT", "9090")]) ""
  = "example.com:9090" ∧
  ParseHost (env_of [("ADDR", "10.0.0.1:80")]) "localhost" = "localhost" ∧
  ParseHost (env_of [("ADDR", ":9000")]) "" = "0.0.0.0:9000".
Proof.
  split; [|split].
  - destruct (ParseHost_spec
                (env_of [("HOSTNAME", "example.com"); ("PORT", "9090")]))
      as (_ & _ & _ & _ & _ & _ & _ & H & _).
    apply H; reflexivity.
  - destruct (ParseHost_spec (env_of [("ADDR", "10.0.0.1:80")]))
      as (H & _).
    apply H; discriminate.
  - destruct (ParseHost_spec (env_of [("ADDR", ":9000")]))
      as (_ & _ & H & _).
    rewrite H by discriminate. reflexivity.
Defined.

(** C4 as stated fails: [localhost] has no colon and [ADDR] is set, yet
    [ParseHost] does not take the address from the environment; the
    empty address in the same environment does. *)
Lemma ParseHost_keeps_address_without_colon :
  strings_IndexByte "localhost" ":"%char = -1 ∧
  ParseHost (env_of [("ADDR", "10.0.0.1:80")]) "localhost" = "localhost" ∧
  ParseHost (env_of [("ADDR", "10.0.0.1:80")]) "" = "10.0.0.1:80".
Proof. repeat split; reflexivity. Qed.

(** C5 at work on a machine where every bind succeeds: with both files
    given the listener carries the loaded pair, and a pair that does not
    load is an error; with only one file given and automatic certificates
    on, the listener is the ACME one, of the production kind with [Prod]
    and of the other kind without; with both files given and automatic
    certificates off it is still the explicit pair; with no file and
    automatic certificates off it is plain TCP. *)
Lemma Listen_listener_priority_witness :
  Listen_listener (env_of []) sample_bind sample_LoadX509KeyPair
    sample_CacheFile (sample_tls_config "cert.pem" "key.pem" false true)
  = Ok (tls_NewListener (TCPListener "tcp4" "0.0.0.0:8443")
          {| Certificates := [("cert.pem", "key.pem")];
             PreferServerCipherSuites := true;
             GetCertificate := None |}) ∧
  Listen_listener (env_of []) sample_bind sample_LoadX509KeyPair
    sample_CacheFile (sample_tls_config "missing.pem" "key.pem" false true)
  = Err (errParseTLS "missing.pem" "key.pem" "open missing.pem: no such file") ∧
  Listen_listener (env_of []) sample_bind sample_LoadX509KeyPair
    sample_CacheFile (sample_tls_config "cert.pem" "" false true)
  = Ok (tls_NewListener (TCPListener "tcp4" "0.0.0.0:8443")
          {| Certificates := [];
             PreferServerCipherSuites := false;
             GetCertificate := Some (AutocertManager true "./certcache") |}) ∧
  Listen_listener (env_of []) sample_bind sample_LoadX509KeyPair
    sample_CacheFile (sample_tls_config "" "" false false)
  = Ok (tls_NewListener (TCPListener "tcp4" "0.0.0.0:8443")
          {| Certificates := [];
             PreferServerCipherSuites := false;
             GetCertificate :=
               Some (LetsEncryptManager "./letsencrypt.cache") |}) ∧
  Listen_listener (env_of []) sample_bind sample_LoadX509KeyPair
    sample_CacheFile (sample_tls_config "" "" true true)
  = Ok (TCPListener "tcp4" "0.0.0.0:8443").
Proof.
  split; [|split; [|split; [|split]]].
  - destruct (Listen_listener_priority (env_of []) sample_bind
                sample_LoadX509KeyPair sample_CacheFile
                (sample_tls_config "cert.pem" "key.pem" false true))
      as (H & _).
    destruct (H ltac:(discriminate) ltac:(discriminate)) as (-> & _).
    reflexivity.
  - destruct (Listen_listener_priority (env_of []) sample_bind
                sample_LoadX509KeyPair sample_CacheFile
                (sample_tls_config "missing.pem" "key.pem" false true))
      as (H & _).
    destruct (H ltac:(discriminate) ltac:(discriminate)) as (_ & Hfail & _).
    apply Hfail. reflexivity.
  - destruct (Listen_listener_priority (env_of []) sample_bind
                sample_LoadX509KeyPair sample_CacheFile
                (sample_tls_config "cert.pem" "" false true))
      as (_ & H & _).
    destruct (H ltac:(by intros [_ []]) eq_refl) as (-> & _).
    reflexivity.
  - destruct (Listen_listener_priority (env_of []) sample_bind
                sample_LoadX509KeyPair sample_CacheFile
                (sample_tls_config "" "" false false))
      as (_ & H & _).
    destruct (H ltac:(by intros [[] _]) eq_refl) as (-> & _).
    reflexivity.
  - destruct (Listen_listener_priority (env_of []) sample_bind
                sample_LoadX509KeyPair sample_CacheFile
                (sample_tls_config "" "" true true))
      as (_ & _ & H).
    destruct (H ltac:(by intros [[] _]) eq_refl) as (-> & _).
    reflexivity.
Defined.

(** C6 (amended) at work: [Service] has launched [Listen], which serves
    on the socket; a call of [Shutdown] makes [Service] return no error,
    and the socket and the serving goroutine stay as they were. *)
Lemma Shutdown_unblocks_Service_witness :
  ∃ w',
    run (env_of []) sample_bind sample_LoadX509KeyPair sample_CacheFile
      (sample_config "www") [Shutdown_call; Exit_from_Shutdown 0]
      {| gm_exit := exitChan; service := SvcReceiving; listen := LisServing;
         primary := SockOpen (TCPListener "tcp4" "0.0.0.0:8443");
         vs_started := false; shutdowns := [] |}
    = Some w' ∧
    service w' = SvcReturned None ∧
    primary w' = SockOpen (TCPListener "tcp4" "0.0.0.0:8443") ∧
    listen w' = LisServing.
Proof.
  destruct (Shutdown_unblocks_Service (env_of []) sample_bind
              sample_LoadX509KeyPair sample_CacheFile (sample_config "www")
              {| gm_exit := exitChan; service := SvcReceiving;
                 listen := LisServing;
                 primary := SockOpen (TCPListener "tcp4" "0.0.0.0:8443");
                 vs_started := false; shutdowns := [] |})
    as (w' & Hrun & Hsvc & Hsock & Hlis & _).
  - exists [Service_enter; Service_launch; Listen_provision]. reflexivity.
  - reflexivity.
  - reflexivity.
  - exists w'. repeat split; assumption.
Defined.

(** C6 as stated fails.  [Service] is called, launches [Listen], which
    opens the socket and serves; [Shutdown] is called and [Service]
    returns no error: the socket is still open and [Listen] still
    serving on it.  And when [Shutdown] is called after [Service] was
    entered but before it made the exit channel, the send is on the [nil]
    channel and no exchange with [Service] is ever enabled. *)
Lemma Shutdown_leaves_socket_open :
  run (env_of []) sample_bind sample_LoadX509KeyPair sample_CacheFile
    (sample_config "www")
    [Service_enter; Service_launch; Listen_provision;
     Shutdown_call; Exit_from_Shutdown 0] Runtime_init
  = Some {| gm_exit := exitChan; service := SvcReturned None;
            listen := LisServing;
            primary := SockOpen (TCPListener "tcp4" "0.0.0.0:8443");
            vs_started := false; shutdowns := [ShReturned] |} ∧
  run (env_of []) sample_bind sample_LoadX509KeyPair sample_CacheFile
    (sample_config "www")
    [Service_enter; Shutdown_call; Service_launch; Listen_provision]
    Runtime_init
  = Some {| gm_exit := exitChan; service := SvcReceiving;
            listen := LisServing;
            primary := SockOpen (TCPListener "tcp4" "0.0.0.0:8443");
            vs_started := false; shutdowns := [ShSending nilChan] |} ∧
  (∀ i,
     exec (env_of []) sample_bind sample_LoadX509KeyPair sample_CacheFile
       (sample_config "www") (Exit_from_Shutdown i)
       {| gm_exit := exitChan; service := SvcReceiving;
          listen := LisServing;
          primary := SockOpen (TCPListener "tcp4" "0.0.0.0:8443");
          vs_started := false; shutdowns := [ShSending nilChan] |}
     = None).
Proof.
  split; [reflexivity|]. split; [reflexivity|].
  intros [|[|i]]; reflexivity.
Qed.

(** * Further properties, across environments *)




(** X19: with the default configuration and the port free, [Listen]
    serves on the production ACME listener at [0.0.0.0:443] whatever the
    environment holds, and the redirect server sends every request to
    [https://], its host without the port, and its URI. *)
Theorem DefaultConfig_listens_on_443 (Certificate : Type) (env : Environ)
    (bind : string → string → option error)
    (tls_LoadX509KeyPair : string → string → result Certificate)
    (Manager_CacheFile : string → option error) :
  bind "tcp4" "0.0.0.0:443" = None →
  Listen_listener env bind tls_LoadX509KeyPair Manager_CacheFile DefaultConfig
  = Ok (tls_NewListener (TCPListener "tcp4" "0.0.0.0:443")
          {| Certificates := [];
             PreferServerCipherSuites := false;
             GetCertificate := Some (AutocertManager true "./certcache") |}) ∧
  (∀ r, Location (redirectHandler DefaultConfig r) =
        "https://" +:+ realHost (Request.Host r) +:+ Request.RequestURI r).
Proof.
  intros Hfree. split; [|done].
  assert (ParseHost env ":443" = "0.0.0.0:443") as Haddr
    by (by rewrite ParseHost_nonempty).
  assert (ParseHost env "0.0.0.0:443" = "0.0.0.0:443") as Hagain
    by (by rewrite ParseHost_nonempty).
  unfold Listen_listener, LETSENCRYPTPROD, TCP4, net_Listen.
  change (Addr DefaultConfig) with ":443". rewrite Haddr.
  rewrite decide_False by (by intros [? _]).
  change (negb (SSL_DisableLetsEncrypt DefaultConfig)) with true.
  change (Prod DefaultConfig) with true. cbv iota.
  rewrite decide_False by done. by rewrite Hagain, Hfree.
Qed.

(** * The further properties at concrete inputs *)

(** X1 at work: a handler registered for [a.com] leaves a request for
    [b.com] with its upstream. *)
Lemma AddHostHandler_other_hosts_witness :
  proxyHandler sample_forward sample_fs
    (AddHostHandler "a.com" (sample_handler "local")
       (Setup sample_url_Parse (sample_config "www")).1).1
    (sample_request "b.com" "/")
  = proxyHandler sample_forward sample_fs
      (Setup sample_url_Parse (sample_config "www")).1
      (sample_request "b.com" "/").
Proof.
  apply (AddHostHandler_other_hosts sample_forward sample_fs
           (Setup sample_url_Parse (sample_config "www")).1 "a.com"
           (sample_handler "local") (sample_request "b.com" "/")).
  discriminate.
Defined.

(** X2 at work: handlers for [a.com] and [b.com], registered in either
    order on a fresh instance. *)
Lemma AddHostHandler_commute_witness :
  (AddHostHandler "b.com" (sample_handler "two")
     (AddHostHandler "a.com" (sample_handler "one")
        (Setup sample_url_Parse (sample_config "www")).1).1).1
  = (AddHostHandler "a.com" (sample_handler "one")
       (AddHostHandler "b.com" (sample_handler "two")
          (Setup sample_url_Parse (sample_config "www")).1).1).1.
Proof.
  apply (AddHostHandler_commute
           (Setup sample_url_Parse (sample_config "www")).1
           "a.com" "b.com" (sample_handler "one") (sample_handler "two")).
  discriminate.
Defined.

(** X3 at work: the route of [b.com] in the sample table comes from the
    second configured entry. *)
Lemma Setup_table_sound_witness :
  ∃ r u, r ∈ Proxies (sample_config "www") ∧ HostConfig.Proxy r = "b.com" ∧
         sample_url_Parse (HostConfig.Host r) = Ok u ∧
         NewSingleHostReverseProxy "http://two" = NewSingleHostReverseProxy u.
Proof.
  apply (Setup_table_sound sample_url_Parse (sample_config "www") "b.com"
           (NewSingleHostReverseProxy "http://two")).
  reflexivity.
Defined.

(** X4 at work: the two sample routes, swapped. *)
Lemma Setup_order_irrelevant_witness :
  proxies
    (Setup sample_url_Parse
       (with_Proxies (sample_config "www")
          [HostConfig.Build "a.com" "http://one";
           HostConfig.Build "b.com" "http://two"])).1
  = proxies
      (Setup sample_url_Parse
         (with_Proxies (sample_config "www")
            [HostConfig.Build "b.com" "http://two";
             HostConfig.Build "a.com" "http://one"])).1.
Proof.
  apply (Setup_order_irrelevant sample_url_Parse (sample_config "www")).
  - apply NoDup_cons. split.
    + intros [E|E]%elem_of_cons; [discriminate E | by apply elem_of_nil in E].
    + apply NoDup_singleton.
  - apply perm_swap.
Defined.

(** X6 at work: the static root [srv/www] and the Host header
    [a.com]. *)
Lemma static_name_of_plain_host_witness :
  dispatch
    (Setup sample_url_Parse (with_Proxies (sample_config "srv/www") [])).1
    (sample_request "a.com" "/x.html")
  = ToServeFile "srv/www/a.com".
Proof.
  apply (static_name_of_plain_host
           (Setup sample_url_Parse
              (with_Proxies (sample_config "srv/www") [])).1
           (sample_request "a.com" "/x.html") ["srv"; "www"]).
  - reflexivity.
  - reflexivity.
  - reflexivity.
  - discriminate.
  - repeat constructor; discriminate.
  - repeat split; discriminate.
Defined.

(** X7 at work: with the static root [srv/www] a request whose Host
    header is [..] is served from [srv]; with the root [www] it is served
    from the working directory. *)
Lemma static_name_of_dotdot_host_witness :
  dispatch
    (Setup sample_url_Parse (with_Proxies (sample_config "srv/www") [])).1
    (sample_request ".." "/")
  = ToServeFile "srv" ∧
  dispatch
    (Setup sample_url_Parse (with_Proxies (sample_config "www") [])).1
    (sample_request ".." "/")
  = ToServeFile ".".
Proof.
  split.
  - apply (static_name_of_dotdot_host
             (Setup sample_url_Parse
                (with_Proxies (sample_config "srv/www") [])).1
             (sample_request ".." "/") ["srv"] "www").
    + reflexivity.
    + reflexivity.
    + reflexivity.
    + repeat constructor; discriminate.
    + repeat split; discriminate.
    + reflexivity.
  - apply (static_name_of_dotdot_host
             (Setup sample_url_Parse
                (with_Proxies (sample_config "www") [])).1
             (sample_request ".." "/") [] "www").
    + reflexivity.
    + reflexivity.
    + reflexivity.
    + constructor.
    + repeat split; discriminate.
    + reflexivity.
Defined.

(** X9 at work: with a certificate file that does not load, the error
    of [Listen] is the formatted error of the loader. *)
Lemma Listen_listener_error_origin_witness :
  (∃ addr, sample_bind "tcp4" addr
           = Some (errParseTLS "missing.pem" "key.pem"
                     "open missing.pem: no such file")) ∨
  sample_CacheFile "./letsencrypt.cache"
  = Some (errParseTLS "missing.pem" "key.pem"
            "open missing.pem: no such file") ∨
  (∃ e, sample_LoadX509KeyPair "missing.pem" "key.pem" = Err e ∧
        errParseTLS "missing.pem" "key.pem" "open missing.pem: no such file"
        = errParseTLS "missing.pem" "key.pem" e).
Proof.
  apply (Listen_listener_error_origin (env_of []) sample_bind
           sample_LoadX509KeyPair sample_CacheFile
           (sample_tls_config "missing.pem" "key.pem" false true)).
  reflexivity.
Defined.


(** X11 at work: the bind address [example.com:443]. *)
Lemma redirect_to_standard_port_witness :
  Location
    (redirectHandler (with_Addr DefaultConfig "example.com:443")
       (sample_request "example.com:80" "/path?x=1"))
  = "https://example.com/path?x=1".
Proof.
  destruct (redirect_to_standard_port
              (with_Addr DefaultConfig "example.com:443")
              (sample_request "example.com:80" "/path?x=1")) as [_ H].
  - right. exists "example.com". split; reflexivity.
  - rewrite H. reflexivity.
Defined.

(** X12 at work: after [Service] has returned on a call of [Shutdown],
    [Listen] is still serving and the socket is the open listener it
    chose. *)
Lemma socket_open_while_serving_witness :
  listen (Certificate := string * string)
    {| gm_exit := exitChan; service := SvcReturned None; listen := LisServing;
       primary := SockOpen (TCPListener "tcp4" "0.0.0.0:8443");
       vs_started := false; shutdowns := [ShReturned] |} = LisServing ∧
  Listen_listener (env_of []) sample_bind sample_LoadX509KeyPair
    sample_CacheFile (sample_config "www")
  = Ok (TCPListener "tcp4" "0.0.0.0:8443").
Proof.
  destruct (socket_open_while_serving (env_of []) sample_bind
              sample_LoadX509KeyPair sample_CacheFile (sample_config "www")
              {| gm_exit := exitChan; service := SvcReturned None;
                 listen := LisServing;
                 primary := SockOpen (TCPListener "tcp4" "0.0.0.0:8443");
                 vs_started := false; shutdowns := [ShReturned] |})
    as [Hopen _].
  - exists [Service_enter; Service_launch; Listen_provision;
            Shutdown_call; Exit_from_Shutdown 0].
    reflexivity.
  - apply (Hopen (TCPListener "tcp4" "0.0.0.0:8443")). reflexivity.
Defined.

(** X13 at work: [Serve] fails with an error, [Service] receives it;
    [Listen] has returned and the socket is closed. *)
Lemma Service_result_origin_witness :
  listen (Certificate := string * string)
    {| gm_exit := exitChan; service := SvcReturned (Some "accept: closed");
       listen := LisDone; primary := SockClosed;
       vs_started := false; shutdowns := [] |} = LisDone ∧
  primary (Certificate := string * string)
    {| gm_exit := exitChan; service := SvcReturned (Some "accept: closed");
       listen := LisDone; primary := SockClosed;
       vs_started := false; shutdowns := [] |} = SockClosed.
Proof.
  apply (Service_result_origin (env_of []) sample_bind
           sample_LoadX509KeyPair sample_CacheFile (sample_config "www")
           {| gm_exit := exitChan;
              service := SvcReturned (Some "accept: closed");
              listen := LisDone; primary := SockClosed;
              vs_started := false; shutdowns := [] |}
           (Some "accept: closed")).
  - exists [Service_enter; Service_launch; Listen_provision;
            Serve_return "accept: closed"; Exit_from_Listen].
    reflexivity.
  - reflexivity.
Defined.

(** X14 at work: [Service] has returned on a first call of [Shutdown];
    a second call is made and finds no one to receive it. *)
Lemma Service_return_is_final_witness :
  exec (env_of []) sample_bind sample_LoadX509KeyPair sample_CacheFile
    (sample_config "www") (Exit_from_Shutdown 1)
    {| gm_exit := exitChan; service := SvcReturned None; listen := LisServing;
       primary := SockOpen (TCPListener "tcp4" "0.0.0.0:8443");
       vs_started := false;
       shutdowns := [ShReturned; ShSending exitChan] |} = None.
Proof.
  apply (Service_return_is_final (env_of []) sample_bind
           sample_LoadX509KeyPair sample_CacheFile (sample_config "www")
           {| gm_exit := exitChan; service := SvcReturned None;
              listen := LisServing;
              primary := SockOpen (TCPListener "tcp4" "0.0.0.0:8443");
              vs_started := false;
              shutdowns := [ShReturned; ShSending exitChan] |} None).
  reflexivity.
Defined.

(** X15 at work: [Shutdown] is called before [Service]; [Service] then
    starts and [Listen] serves, and the early call is still blocked. *)
Lemma Shutdown_before_channel_never_received_witness :
  shutdowns (Certificate := string * string)
    {| gm_exit := exitChan; service := SvcReceiving; listen := LisServing;
       primary := SockOpen (TCPListener "tcp4" "0.0.0.0:8443");
       vs_started := false; shutdowns := [ShSending nilChan] |} !! 0%nat
  = Some (ShSending nilChan).
Proof.
  apply (Shutdown_before_channel_never_received (env_of []) sample_bind
           sample_LoadX509KeyPair sample_CacheFile (sample_config "www")
           Runtime_init
           {| gm_exit := exitChan; service := SvcReceiving;
              listen := LisServing;
              primary := SockOpen (TCPListener "tcp4" "0.0.0.0:8443");
              vs_started := false; shutdowns := [ShSending nilChan] |}
           [Service_enter; Service_launch; Listen_provision]).
  - exists []. reflexivity.
  - left. reflexivity.
  - reflexivity.
Defined.

(** X19 at work: the default configuration on the sample machine, with
    an address in the environment that plays no part. *)
Lemma DefaultConfig_listens_on_443_witness :
  Listen_listener (env_of [("ADDR", "10.0.0.1:80")]) sample_bind
    sample_LoadX509KeyPair sample_CacheFile DefaultConfig
  = Ok (tls_NewListener (TCPListener "tcp4" "0.0.0.0:443")
          {| Certificates := [];
             PreferServerCipherSuites := false;
             GetCertificate := Some (AutocertManager true "./certcache") |}).
Proof.
  apply (DefaultConfig_listens_on_443 (string * string)
           (env_of [("ADDR", "10.0.0.1:80")]) sample_bind
           sample_LoadX509KeyPair sample_CacheFile).
  reflexivity.
Defined.
